(** * plot_dc_analysis.py: the numeric core of the benchmark plot script

    The script reads [dc_analysis_results.csv] into a pandas DataFrame,
    derives a normalised theoretical curve (line 12) and an efficiency
    percentage (line 33), draws two panels and saves the figure.

    The development is organised as follows.
    - [Arith]: the arithmetic the derived columns are computed in.  The
      script runs on numpy [float64]; instance [binary64] is IEEE 754
      binary64 with round-to-nearest-even, taken from the Standard
      Library's executable specification [SpecFloat].  Instance [exact]
      interprets the same program text over the rationals and is used
      only to say what the formulas mean without rounding.
    - [Series] and frames ([gmap string (Series T)]): typed columns
      looked up by name.
    - [normalizeTheoretical], [computeEfficiency]: lines 12 and 33.
    - [main]: the whole script as a state-and-exception computation over
      a [World] (files, the variable [df], the plotting calls made). *)

From Stdlib Require Import ZArith QArith Qpower Qcanon Lia Floats.SpecFloat.
From stdpp Require Import gmap strings list.

Local Open Scope string_scope.
Local Open Scope Z_scope.

(** ** Arithmetic *)

Class Arith (T : Type) := {
  fadd : T -> T -> T;
  fmul : T -> T -> T;
  fdiv : T -> T -> T;
  (** the sum of an array, in the order the library adds its elements *)
  fsum : list T -> T;
  (** conversion of an [int64] (or a Python [int]) operand to the float type *)
  of_int : Z -> T;
  (** the value [Series.mean] gives when nothing is left to average *)
  fnan : T;
  isnan : T -> bool;
  (** [x < 0] *)
  fneg : T -> bool
}.

Module F64.

Definition prec : Z := 53.
Definition emax : Z := 1024.

Definition t : Type := spec_float.

Definition add : t -> t -> t := SFadd prec emax.
Definition mul : t -> t -> t := SFmul prec emax.
Definition div : t -> t -> t := SFdiv prec emax.
Definition of_Z (z : Z) : t := binary_normalize prec emax z 0 false.

(** The sum of a float64 array, as numpy's [add.reduce] computes it
    (pairwise summation).  Fewer than 8 values are added one after the
    other, from the left, to an accumulator that starts at [0].  Up to
    128 values are added in eight interleaved partial sums, one for each
    position modulo 8, which are then combined as
    [((r0+r1)+(r2+r3))+((r4+r5)+(r6+r7))]; the values after the last full
    group of eight are added to that, from the left.  A longer array is
    cut near its middle, at a multiple of 8, and the sums of the two
    parts are added.  The result is added to the initial value [0] of the
    reduction.  (Only the sign of a zero sum depends on the signs of the
    two initial zeros.) *)
Definition sum_left (r : t) (v : list t) : t := foldl add r v.

(** [k] further groups of eight added to the eight partial sums [r] *)
Fixpoint sum_lanes (k : nat) (r body : list t) : list t :=
  match k with
  | O => r
  | S k' => sum_lanes k' (zip_with add r (take 8 body)) (drop 8 body)
  end.

Definition combine_lanes (r : list t) : t :=
  match r with
  | [r0; r1; r2; r3; r4; r5; r6; r7] =>
      add (add (add r0 r1) (add r2 r3)) (add (add r4 r5) (add r6 r7))
  | _ => of_Z 0
  end.

(** a block of 8 to 128 values *)
Definition sum_block (v : list t) : t :=
  let n := length v in
  let r := sum_lanes (n / 8 - 1) (take 8 v) (drop 8 v) in
  sum_left (combine_lanes r) (drop (8 * (n / 8)) v).

(** the recursion on the length, by fuel: each cut leaves two strictly
    shorter parts, so fuel equal to the length is never used up *)
Fixpoint pairwise_sum (fuel : nat) (v : list t) : t :=
  let n := length v in
  if (n <? 8)%nat then sum_left (of_Z 0) v
  else if (n <=? 128)%nat then sum_block v
  else
    match fuel with
    | O => sum_block v
    | S fuel' =>
        let n2 := (n / 2 - (n / 2) mod 8)%nat in
        add (pairwise_sum fuel' (take n2 v)) (pairwise_sum fuel' (drop n2 v))
    end.

Definition sum (v : list t) : t := add (of_Z 0) (pairwise_sum (length v) v).

(** [x < 0]: a negative ordinary number or the negative infinity *)
Definition is_negative (x : t) : bool :=
  match x with
  | S754_finite true _ _ | S754_infinity true => true
  | _ => false
  end.

Definition is_nan (x : t) : bool :=
  match x with S754_nan => true | _ => false end.

Definition not_nan (x : t) : Prop := is_nan x = false.

Definition is_zero (x : t) : bool :=
  match x with S754_zero _ => true | _ => false end.

(** finite and different from zero: an ordinary nonzero real number *)
Definition is_finite_nonzero (x : t) : bool :=
  match x with S754_finite _ _ _ => true | _ => false end.

(** an ordinary number greater than zero *)
Definition is_positive (x : t) : bool :=
  match x with S754_finite false _ _ => true | _ => false end.

(** neither an ordinary number nor a zero: an infinity or NaN *)
Definition is_inf_or_nan (x : t) : bool :=
  match x with S754_infinity _ | S754_nan => true | _ => false end.

(** numeric equality, Python's [==] on floats *)
Definition eqb : t -> t -> bool := SFeqb.

(** the literal [m / 10^k], e.g. [decimal 5 1] for [0.5]: for operands
    below [2^53] the quotient is the correctly rounded value *)
Definition decimal (m : Z) (k : nat) : t := div (of_Z m) (of_Z (10 ^ Z.of_nat k)).

(** the real number a float denotes; infinities and NaN denote none
    and are sent to [0] *)
Definition to_Q (x : t) : Q :=
  match x with
  | S754_finite s m e =>
      let v := (inject_Z (Z.pos m) * Qpower 2 e)%Q in
      if s then Qopp v else v
  | _ => 0%Q
  end.

Definition to_Qc (x : t) : Qc := Q2Qc (to_Q x).

(** [x] lies within [0.05] of [tenths / 10]: printed with one decimal
    place, as the caption does, it reads [tenths / 10] *)
Definition near_tenths (x : t) (tenths : Z) : bool :=
  is_finite_nonzero x
  && Qle_bool (inject_Z (2 * tenths - 1) / 20) (to_Q x)
  && negb (Qle_bool (inject_Z (2 * tenths + 1) / 20) (to_Q x)).

End F64.

#[export] Instance binary64 : Arith F64.t := {|
  fadd := F64.add;
  fmul := F64.mul;
  fdiv := F64.div;
  fsum := F64.sum;
  of_int := F64.of_Z;
  fnan := S754_nan;
  isnan := F64.is_nan;
  fneg := F64.is_negative
|}.

(** Rational arithmetic: no rounding and no NaN.  Division by zero is
    [0] here (as [Qcinv 0] is); statements about this instance assume
    nonzero denominators. *)
#[export] Instance exact : Arith Qc := {|
  fadd := Qcplus;
  fmul := Qcmult;
  fdiv := Qcdiv;
  fsum := foldl Qcplus (Q2Qc 0);
  of_int := fun z => Q2Qc (inject_Z z);
  fnan := Q2Qc 0;
  isnan := fun _ => false;
  fneg := fun q => match Qccompare q (Q2Qc 0) with Lt => true | _ => false end
|}.

(** ** Exceptions and results *)

Inductive exn :=
  | FileNotFoundError (path : string)
  | NameError (name : string)
  | KeyError (column : string)
  | IndexError
  | TypeError
  | ValueError
  | EmptyDataError
  | ParserError
  | OSError (path : string).

Inductive result (A : Type) :=
  | Ok (a : A)
  | Raise (e : exn).
Arguments Ok {A} a.
Arguments Raise {A} e.

Definition rbind {A B} (r : result A) (k : A -> result B) : result B :=
  match r with
  | Ok a => k a
  | Raise e => Raise e
  end.

Declare Scope result_scope.
Delimit Scope result_scope with result.
Notation "x <- r ;; k" := (rbind r (fun x => k))
  (at level 100, r at next level, right associativity) : result_scope.

(** ** Columns and frames *)

Section Frames.
Context {T : Type} `{Arith T}.

(** a cell of a column that [pd.read_csv] could not read as numbers:
    the text of the cell, or nothing (an empty cell, kept as NaN) *)
Inductive Cell :=
  | Text (s : string)
  | Missing.

(** a column with its dtype; a column with a cell that is no number is
    read as an [object] column of texts, its empty cells missing (a
    column of [True]/[False] behaves in the arithmetic of lines 12 and
    33 as the integer column of [1]/[0]) *)
Inductive Series :=
  | Int64Series (xs : list Z)
  | Float64Series (xs : list T)
  | ObjectSeries (xs : list Cell).

(** an element taken out of a column: [np.int64], [np.float64] or [str] *)
Inductive Scalar :=
  | Int64 (z : Z)
  | Float64 (x : T)
  | Str (s : string).

(** a scalar as an operand of float arithmetic; a text is no operand *)
Definition scalar_float (s : Scalar) : result T :=
  match s with
  | Int64 z => Ok (of_int z)
  | Float64 x => Ok x
  | Str _ => Raise TypeError
  end.

Definition is_text (c : Cell) : bool :=
  match c with Text _ => true | Missing => false end.

(** the column holds a text *)
Definition has_text (s : Series) : bool :=
  match s with
  | ObjectSeries xs => existsb is_text xs
  | _ => false
  end.

(** the entries of a column without text, as floats *)
Definition float_values (s : Series) : list T :=
  match s with
  | Int64Series xs => of_int <$> xs
  | Float64Series xs => xs
  | ObjectSeries xs => (fun _ => fnan) <$> xs
  end.

(** a column as an operand of elementwise float arithmetic: what every
    arithmetic operator of the script does to an integer column before
    it computes ([astype(float64)]); a text in the column makes the
    operator raise *)
Definition to_float (s : Series) : result (list T) :=
  if has_text s then Raise TypeError else Ok (float_values s).

(** [s.iloc[i]] for [i >= 0]; out of bounds raises *)
Definition iloc (s : Series) (i : nat) : result Scalar :=
  match s with
  | Int64Series xs =>
      match xs !! i with Some z => Ok (Int64 z) | None => Raise IndexError end
  | Float64Series xs =>
      match xs !! i with Some x => Ok (Float64 x) | None => Raise IndexError end
  | ObjectSeries xs =>
      match xs !! i with
      | Some (Text s) => Ok (Str s)
      | Some Missing => Ok (Float64 fnan)
      | None => Raise IndexError
      end
  end.

(** [a / b] on scalars: true division in float64.  A zero divisor only
    warns; the quotient is an infinity or NaN. *)
Definition scalar_truediv (a b : Scalar) : result T :=
  (x <- scalar_float a;;
   y <- scalar_float b;;
   Ok (fdiv x y))%result.

(** [s * k] for a float scalar [k] *)
Definition series_mul_scalar (s : Series) (k : T) : result (list T) :=
  (v <- to_float s;;
   Ok ((fun x => fmul x k) <$> v))%result.

(** [a / b] on two columns of one frame (same index): elementwise *)
Definition series_truediv (a b : Series) : result (list T) :=
  (x <- to_float a;;
   y <- to_float b;;
   Ok (zip_with fdiv x y))%result.

(** [v * n] for a Python int [n] *)
Definition values_mul_int (v : list T) (n : Z) : list T :=
  (fun x => fmul x (of_int n)) <$> v.

(** [Series.mean()] with the default [skipna=True], as pandas'
    [nanops.nanmean] computes it: NaN entries are replaced by [0] and
    left out of the count, the values are summed by numpy ([fsum]), and
    the sum is divided by the count; no entry left gives NaN. *)
Definition count_nan (v : list T) : nat :=
  length (filter (fun x => Is_true (isnan x)) v).

Definition fill_nan (v : list T) : list T :=
  (fun x => if isnan x then of_int 0 else x) <$> v.

Definition nanmean (v : list T) : T :=
  let count := (length v - count_nan v)%nat in
  match count with
  | O => fnan
  | S _ => fdiv (fsum (fill_nan v)) (of_int (Z.of_nat count))
  end.

(** [df[c]]: a frame maps column names to columns *)
Definition getitem (df : gmap string Series) (c : string) : result Series :=
  match df !! c with
  | Some s => Ok s
  | None => Raise (KeyError c)
  end.

(** Line 12 of the script. *)
Definition normalizeTheoretical (df : gmap string Series) : result (list T) :=
  (tc <- getitem df "TheoreticalComplexity";;
   at_ <- getitem df "ActualTime";;
   a0 <- iloc at_ 0;;
   tc' <- getitem df "TheoreticalComplexity";;
   t0 <- iloc tc' 0;;
   k <- scalar_truediv a0 t0;;
   series_mul_scalar tc k)%result.

(** Line 33 of the script, before [.mean()]: the per-row percentages. *)
Definition efficiencyTerms (df : gmap string Series) : result (list T) :=
  (ac <- getitem df "ActualComparisons";;
   tc <- getitem df "TheoreticalComplexity";;
   q <- series_truediv ac tc;;
   Ok (values_mul_int q 100))%result.

(** Line 33 of the script. *)
Definition computeEfficiency (df : gmap string Series) : result T :=
  (v <- efficiencyTerms df;;
   Ok (nanmean v))%result.

(** *** The table of section 3 of the specification, as a frame *)

Record MeasurementRow := {
  gridSize : Z;
  actualTime : T;
  stdDev : T;
  actualComparisons : Z;
  theoreticalComplexity : T
}.

Definition frame_of_rows (rows : list MeasurementRow) : gmap string Series :=
  {[ "GridSize" := Int64Series (gridSize <$> rows);
     "ActualTime" := Float64Series (actualTime <$> rows);
     "StdDev" := Float64Series (stdDev <$> rows);
     "ActualComparisons" := Int64Series (actualComparisons <$> rows);
     "TheoreticalComplexity" := Float64Series (theoreticalComplexity <$> rows) ]}.

(** the mean as the specification words it: the sum over all rows
    divided by the number of rows *)
Definition arithmetic_mean (v : list T) : T :=
  fdiv (fsum v) (of_int (Z.of_nat (length v))).

(** the scale factor of line 12, taken from the anchor row *)
Definition anchor_scale (r : MeasurementRow) : T :=
  fdiv (actualTime r) (theoreticalComplexity r).

(** multiplying the theoretical column of a table by a constant *)
Definition scale_row (c : T) (r : MeasurementRow) : MeasurementRow :=
  {| gridSize := gridSize r; actualTime := actualTime r; stdDev := stdDev r;
     actualComparisons := actualComparisons r;
     theoreticalComplexity := fmul c (theoreticalComplexity r) |}.

(** the percentage of one row, as the specification words it *)
Definition row_percent (r : MeasurementRow) : T :=
  fmul (fdiv (of_int (actualComparisons r)) (theoreticalComplexity r)) (of_int 100).

End Frames.

Arguments Series T : clear implicits.
Arguments Scalar T : clear implicits.
Arguments MeasurementRow T : clear implicits.

(** ** The script as a computation over the world

    [World] holds what the script can see or change: the CSV files of
    the working directory (each as what [pd.read_csv] makes of it: the
    table, tokenised and typed, or the exception of the parser), whether
    the output image can be written, the
    global variable [df], the data-carrying plotting calls made so far,
    the image written by [savefig] and the console.  Calls that only
    take constants (labels, titles, grids, legends) carry no data and
    cannot fail; they are not recorded.

    What matplotlib does with the values it is given is not part of the
    script.  One rule of it is documented and modelled: the error-bar
    sizes must not be negative.  Everything else is left open: the world
    says which calls matplotlib refuses ([plot_error]) and which figures
    it cannot lay out and render ([render_error]), and every statement
    below holds whatever these are. *)

Section Script.
Context {T : Type} `{Arith T}.

(** what [pd.read_csv] makes of a file that exists: the table it
    parses, or the exception it raises ([EmptyDataError] for a file
    without columns, [ParserError] for a line with too many fields, and
    whatever else the parser may raise) *)
Inductive CsvFile :=
  | Table (t : gmap string (Series T))
  | Unreadable (e : exn).

Inductive Call :=
  | Errorbar (x y yerr : Series T)
  | Plot (x : Series T) (y : list T)
  | Loglog (x y : Series T)
  | Figtext (efficiency : T).

Record World := {
  files : gmap string CsvFile;
  can_write : bool;
  plot_error : Call -> option exn;
  render_error : list Call -> option exn;
  df : option (gmap string (Series T));
  figure : list Call;
  saved : option (list Call);
  stdout : list string
}.

Definition M (A : Type) : Type := World -> result A * World.

Definition ret {A} (a : A) : M A := fun w => (Ok a, w).

Definition bind {A B} (m : M A) (k : A -> M B) : M B :=
  fun w =>
    match m w with
    | (Ok a, w') => k a w'
    | (Raise e, w') => (Raise e, w')
    end.

Notation "x <- m ;;; k" := (bind m (fun x => k))
  (at level 100, m at next level, right associativity).
Notation "m ;;; k" := (bind m (fun _ => k))
  (at level 100, right associativity).

Definition csv_path : string := "dc_analysis_results.csv".
Definition png_path : string := "dc_complexity_analysis.png".

(** [pd.read_csv(path)]: the call names no column, so nothing about
    the header is checked here. *)
Definition read_csv (path : string) : M (gmap string (Series T)) :=
  fun w =>
    match files w !! path with
    | Some (Table t) => (Ok t, w)
    | Some (Unreadable e) => (Raise e, w)
    | None => (Raise (FileNotFoundError path), w)
    end.

Definition assign_df (t : gmap string (Series T)) : M unit :=
  fun w =>
    (Ok tt, {| files := files w; can_write := can_write w;
               plot_error := plot_error w; render_error := render_error w;
               df := Some t;
               figure := figure w; saved := saved w; stdout := stdout w |}).

(** reading the variable [df] and applying a function to it; the
    name is unbound before line 5 has run *)
Definition with_df {A} (f : gmap string (Series T) -> result A) : M A :=
  fun w =>
    match df w with
    | Some t => (f t, w)
    | None => (Raise (NameError "df"), w)
    end.

Definition column (c : string) : M (Series T) :=
  with_df (fun t => getitem t c).

(** some error-bar size is negative *)
Definition yerr_negative (s : Series T) : bool :=
  match s with
  | Int64Series xs => existsb (fun z => z <? 0) xs
  | Float64Series xs => existsb fneg xs
  | ObjectSeries _ => false
  end.

(** the exception a plotting call raises, if any: what the world says
    matplotlib refuses, and [ValueError] for a negative error-bar size *)
Definition pyplot_error (w : World) (c : Call) : option exn :=
  match plot_error w c with
  | Some e => Some e
  | None =>
      match c with
      | Errorbar _ _ yerr => if yerr_negative yerr then Some ValueError else None
      | _ => None
      end
  end.

Definition draw (c : Call) : M unit :=
  fun w =>
    match pyplot_error w c with
    | Some e => (Raise e, w)
    | None =>
        (Ok tt, {| files := files w; can_write := can_write w;
                   plot_error := plot_error w; render_error := render_error w;
                   df := df w;
                   figure := figure w ++ [c]; saved := saved w; stdout := stdout w |})
    end.

(** lines 39 to 41: the figure is laid out and rendered, then written *)
Definition savefig (path : string) : M unit :=
  fun w =>
    match render_error w (figure w) with
    | Some e => (Raise e, w)
    | None =>
        if can_write w then
          (Ok tt, {| files := files w; can_write := can_write w;
                     plot_error := plot_error w; render_error := render_error w;
                     df := df w;
                     figure := figure w; saved := Some (figure w); stdout := stdout w |})
        else (Raise (OSError path), w)
    end.

Definition print (msg : string) : M unit :=
  fun w =>
    (Ok tt, {| files := files w; can_write := can_write w;
               plot_error := plot_error w; render_error := render_error w;
               df := df w;
               figure := figure w; saved := saved w; stdout := stdout w ++ [msg] |}).

(** line 5 *)
Definition load : M unit :=
  t <- read_csv csv_path ;;; assign_df t.

(** line 12 *)
Definition normalize_step : M (list T) := with_df normalizeTheoretical.

(** line 33 *)
Definition efficiency_step : M T := with_df computeEfficiency.

(** lines 9 to 14: arguments are evaluated left to right *)
Definition render_panel_a : M unit :=
  gs <- column "GridSize" ;;;
  at_ <- column "ActualTime" ;;;
  sd <- column "StdDev" ;;;
  draw (Errorbar gs at_ sd) ;;;
  tn <- normalize_step ;;;
  gs' <- column "GridSize" ;;;
  draw (Plot gs' tn).

(** lines 22 to 25 *)
Definition render_panel_b : M unit :=
  gs <- column "GridSize" ;;;
  ac <- column "ActualComparisons" ;;;
  draw (Loglog gs ac) ;;;
  gs' <- column "GridSize" ;;;
  tc <- column "TheoreticalComplexity" ;;;
  draw (Loglog gs' tc).

(** lines 33 to 37 *)
Definition annotate : M unit :=
  eff <- efficiency_step ;;;
  draw (Figtext eff).

Definition render : M unit :=
  render_panel_a ;;; render_panel_b ;;; annotate.

(** lines 39 to 41 *)
Definition save : M unit := savefig png_path.

(** line 42; [plt.show()] on line 43 displays the figure and changes
    nothing that is modelled *)
Definition report : M unit :=
  print "Divide & Conquer complexity analysis plot saved as dc_complexity_analysis.png".

Definition main : M unit :=
  load ;;; render ;;; save ;;; report.

(** the world the script starts in: nothing bound, drawn or written;
    matplotlib refuses nothing but negative error-bar sizes *)
Definition initial_world (fs : gmap string CsvFile) (writable : bool) : World :=
  {| files := fs; can_write := writable;
     plot_error := fun _ => None; render_error := fun _ => None;
     df := None;
     figure := []; saved := None; stdout := [] |}.

(** a step that leaves the variable [df] as it found it *)
Definition preserves_df {A} (m : M A) : Prop :=
  forall w, df (snd (m w)) = df w.

(** a step that leaves the files of the working directory alone *)
Definition preserves_files {A} (m : M A) : Prop :=
  forall w, files (snd (m w)) = files w.

(** the world right after line 5 has bound [df] to the table [t] *)
Definition loaded (w : World) (t : gmap string (Series T)) : World :=
  {| files := files w; can_write := can_write w;
     plot_error := plot_error w; render_error := render_error w;
     df := Some t;
     figure := figure w; saved := saved w; stdout := stdout w |}.

Definition required_columns : list string :=
  ["GridSize"; "ActualTime"; "StdDev"; "ActualComparisons"; "TheoreticalComplexity"].

End Script.

Arguments CsvFile T : clear implicits.
Arguments World T : clear implicits.
Arguments Call T : clear implicits.
Arguments M T A : clear implicits.

(** ** The same table read without rounding

    A float table whose entries are ordinary numbers denotes a table of
    rationals; running the program text on it with instance [exact]
    gives the values the formulas have before any rounding. *)

Definition exact_row (r : MeasurementRow F64.t) : MeasurementRow Qc :=
  {| gridSize := gridSize r;
     actualTime := F64.to_Qc (actualTime r);
     stdDev := F64.to_Qc (stdDev r);
     actualComparisons := actualComparisons r;
     theoreticalComplexity := F64.to_Qc (theoreticalComplexity r) |}.

(** ** Concrete tables *)

Module Samples.
Import F64.

Definition row (n : Z) (time sd : t) (cmp : Z) (theo : t) : MeasurementRow t :=
  {| gridSize := n; actualTime := time; stdDev := sd;
     actualComparisons := cmp; theoreticalComplexity := theo |}.

(** the three-row example of the specification, with the dtypes
    [pd.read_csv] infers: integer columns where every cell is an
    integer literal *)
Definition sample_frame : gmap string (Series t) :=
  {[ "GridSize" := Int64Series [8; 16; 32];
     "ActualTime" := Float64Series [decimal 100 1; decimal 450 1; decimal 2000 1];
     "StdDev" := Float64Series [decimal 5 1; decimal 20 1; decimal 80 1];
     "ActualComparisons" := Int64Series [100; 500; 2500];
     "TheoreticalComplexity" := Int64Series [96; 512; 2560] ]}.

(** the same example as rows, the theoretical column written as floats *)
Definition sample_rows : list (MeasurementRow t) :=
  [ row 8 (decimal 100 1) (decimal 5 1) 100 (of_Z 96);
    row 16 (decimal 450 1) (decimal 20 1) 500 (of_Z 512);
    row 32 (decimal 2000 1) (decimal 80 1) 2500 (of_Z 2560) ].

(** the example with the timing columns replaced *)
Definition sample_rows_retimed : list (MeasurementRow t) :=
  [ row 1 (decimal 7 0) (decimal 1 0) 100 (of_Z 96);
    row 2 (decimal 9 0) (decimal 3 0) 500 (of_Z 512);
    row 3 (decimal 11 0) (decimal 4 0) 2500 (of_Z 2560) ].

(** first theoretical value zero *)
Definition zero_anchor_rows : list (MeasurementRow t) :=
  [ row 8 (decimal 100 1) (decimal 5 1) 100 (of_Z 0);
    row 16 (decimal 450 1) (decimal 20 1) 500 (of_Z 512) ].

(** anchor [ActualTime = 1.0], [TheoreticalComplexity = 49.0] *)
Definition rounding_rows : list (MeasurementRow t) :=
  [ row 8 (of_Z 1) (decimal 5 1) 100 (of_Z 49) ].

(** anchor [ActualTime = 1.0], [TheoreticalComplexity = 1.0] *)
Definition unit_rows : list (MeasurementRow t) :=
  [ row 8 (of_Z 1) (decimal 5 1) 100 (of_Z 1) ].



(** the example without its [StdDev] column *)
Definition no_stddev_frame : gmap string (Series t) :=
  delete "StdDev" sample_frame.

Definition sample_world : World t :=
  initial_world {[ csv_path := Table sample_frame ]} true.

Definition no_stddev_world : World t :=
  initial_world {[ csv_path := Table no_stddev_frame ]} true.

End Samples.

(** ** Vocabulary for the behaviour of the whole script *)

Module F64Range.
Import F64.

(** the exponent of the smallest subnormal, [-1074] *)
Definition emin : Z := SpecFloat.emin prec emax.

(** an ordinary number whose exponent is not below [emin]; every result
    of a float64 operation is such a number *)
Definition above_emin (x : t) : Prop :=
  match x with
  | S754_finite _ _ e => emin <= e
  | _ => True
  end.

Definition is_neg_zero (x : t) : bool :=
  match x with S754_zero true => true | _ => false end.

Definition is_inf (x : t) : bool :=
  match x with S754_infinity _ => true | _ => false end.

(** what the running sum of [F64.sum] always is: not the negative zero,
    and with an exponent in range *)
Definition sum_state (x : t) : Prop :=
  is_neg_zero x = false /\ above_emin x.

End F64Range.

Section Vocabulary.
Context {T : Type} `{Arith T}.

(** a column with at least one entry: [s.iloc[0]] exists *)
Definition nonempty (s : Series T) : bool :=
  match s with
  | Int64Series [] | Float64Series [] | ObjectSeries [] => false
  | _ => true
  end.

(** the number of entries of a column *)
Definition series_length (s : Series T) : nat :=
  match s with
  | Int64Series xs => length xs
  | Float64Series xs => length xs
  | ObjectSeries xs => length xs
  end.

(** a column without text: an operand of float arithmetic *)
Definition numeric (s : Series T) : bool := negb (has_text s).

(** the entry at position 0 exists and is a number *)
Definition head_number (s : Series T) : bool :=
  match iloc s 0 with
  | Ok (Int64 _) | Ok (Float64 _) => true
  | _ => false
  end.

(** the entries that are not NaN, in order *)
Definition drop_nan (v : list T) : list T :=
  filter (fun x => ~ Is_true (isnan x)) v.

(** the plain mean of a list, NaN for the empty list *)
Definition mean_or_nan (v : list T) : T :=
  match v with
  | [] => fnan
  | _ => arithmetic_mean v
  end.


(** the columns in the order line 9 looks them up, before anything is
    drawn *)
Definition lookup_order : list string :=
  ["GridSize"; "ActualTime"; "StdDev"].

(** the columns in the order the script first looks them up *)
Definition script_lookup_order : list string :=
  ["GridSize"; "ActualTime"; "StdDev"; "TheoreticalComplexity"; "ActualComparisons"].

(** the first column, in that order, that a table lacks *)
Definition first_missing (t : gmap string (Series T)) : option string :=
  List.find (fun c => match t !! c with None => true | Some _ => false end)
            script_lookup_order.

(** the five data-carrying calls of a complete figure, for a table
    given by its rows *)
Definition complete_figure (rows : list (MeasurementRow T)) : list (Call T) :=
  match rows with
  | [] => []
  | r0 :: _ =>
      let gs := Int64Series (gridSize <$> rows) in
      let tc := Float64Series (theoreticalComplexity <$> rows) in
      [ Errorbar gs (Float64Series (actualTime <$> rows))
                    (Float64Series (stdDev <$> rows));
        Plot gs ((fun r => fmul (theoreticalComplexity r) (anchor_scale r0)) <$> rows);
        Loglog gs (Int64Series (actualComparisons <$> rows));
        Loglog gs tc;
        Figtext (nanmean (row_percent <$> rows)) ]
  end.

(** the script after line 5 *)
Definition after_load : M T unit :=
  bind render (fun _ => bind save (fun _ => report)).

Definition confirmation : string :=
  "Divide & Conquer complexity analysis plot saved as dc_complexity_analysis.png".

(** a column as a float column of the same values
    ([astype(float64)]); a column with a text cannot be converted and is
    left as it is *)
Definition as_float (s : Series T) : Series T :=
  if has_text s then s else Float64Series (float_values s).

(** converting the column [c] of a frame, if there is one *)
Definition astype_float (c : string) (t : gmap string (Series T)) : gmap string (Series T) :=
  match t !! c with
  | Some s => <[c := as_float s]> t
  | None => t
  end.

End Vocabulary.

Module MoreSamples.
Import F64 Samples.

(** the example with a middle row of [0] comparisons over a
    theoretical value of [0.0] *)
Definition gappy_rows : list (MeasurementRow t) :=
  [ row 8 (decimal 100 1) (decimal 5 1) 100 (of_Z 96);
    row 16 (decimal 450 1) (decimal 20 1) 0 (of_Z 0);
    row 32 (decimal 2000 1) (decimal 80 1) 2500 (of_Z 2560) ].

(** the example with other grid sizes, deviations and counts, and
    other times after the first row *)
Definition sample_rows_varied : list (MeasurementRow t) :=
  [ row 1 (decimal 100 1) (decimal 1 0) 7 (of_Z 96);
    row 2 (decimal 9 0) (decimal 3 0) 8 (of_Z 512);
    row 3 (decimal 11 0) (decimal 4 0) 9 (of_Z 2560) ].

(** the example with a first time of [0.0] *)
Definition zero_time_rows : list (MeasurementRow t) :=
  [ row 8 (of_Z 0) (decimal 5 1) 100 (of_Z 96);
    row 16 (decimal 450 1) (decimal 20 1) 500 (of_Z 512) ].


(** the example table as [frame_of_rows] builds it, in a directory
    that can, or cannot, be written *)
Definition rows_world (writable : bool) : World t :=
  initial_world {[ csv_path := Table (frame_of_rows sample_rows) ]} writable.

(** a directory without the CSV file *)
Definition empty_world : World t := initial_world ∅ true.

(** the example with [n/a] for the second theoretical value: the whole
    column is read as text *)
Definition text_frame : gmap string (Series t) :=
  <[ "TheoreticalComplexity" := ObjectSeries [Text "96"; Text "n/a"; Text "2560"] ]>
    sample_frame.

(** the example with a negative deviation in its second row *)
Definition negative_stddev_rows : list (MeasurementRow t) :=
  [ row 8 (decimal 100 1) (decimal 5 1) 100 (of_Z 96);
    row 16 (decimal 450 1) (decimal (-20) 1) 500 (of_Z 512);
    row 32 (decimal 2000 1) (decimal 80 1) 2500 (of_Z 2560) ].

(** a directory whose CSV file is empty *)
Definition empty_file_world : World t :=
  initial_world {[ csv_path := Unreadable EmptyDataError ]} true.

Definition negative_stddev_world : World t :=
  initial_world {[ csv_path := Table (frame_of_rows negative_stddev_rows) ]} true.

(** the example without its [ActualComparisons] column *)
Definition no_comparisons_world : World t :=
  initial_world {[ csv_path := Table (delete "ActualComparisons" sample_frame) ]} true.

End MoreSamples.

(** ** Facts about binary64 *)

Module F64Facts.
Import F64.

Lemma shr_1_nonneg (mrs : shr_record) :
  0 <= shr_m mrs -> 0 <= shr_m (shr_1 mrs).
Proof.
  destruct mrs as [m r s]. simpl.
  destruct m as [| p | p]; [| destruct p | destruct p]; simpl; lia.
Qed.

Lemma iter_shr_1_nonneg (p : positive) :
  forall mrs, 0 <= shr_m mrs -> 0 <= shr_m (SpecFloat.iter_pos shr_1 p mrs).
Proof.
  induction p as [p IH | p IH |]; intros mrs Hm; simpl.
  - apply IH, IH, shr_1_nonneg, Hm.
  - apply IH, IH, Hm.
  - apply shr_1_nonneg, Hm.
Qed.

Lemma shr_nonneg (mrs : shr_record) (e n : Z) :
  0 <= shr_m mrs -> 0 <= shr_m (fst (shr mrs e n)).
Proof.
  intros Hm. destruct n; simpl; try assumption.
  apply iter_shr_1_nonneg, Hm.
Qed.

Lemma shr_fexp_nonneg (m e : Z) (l : location) :
  0 <= m -> 0 <= shr_m (fst (shr_fexp prec emax m e l)).
Proof.
  intros Hm. unfold shr_fexp. apply shr_nonneg.
  destruct l as [| []]; simpl; assumption.
Qed.

Lemma round_nearest_even_nonneg (m : Z) (l : location) :
  0 <= m -> 0 <= round_nearest_even m l.
Proof.
  intros Hm. destruct l as [| []]; simpl; try lia.
  destruct (Z.even m); lia.
Qed.

(** rounding a non-negative mantissa gives a zero, an ordinary number
    or (on overflow) an infinity, never NaN *)
Lemma binary_round_aux_not_nan (s : bool) (m e : Z) (l : location) :
  0 <= m -> not_nan (binary_round_aux prec emax s m e l).
Proof.
  intros Hm. unfold not_nan, binary_round_aux.
  pose proof (shr_fexp_nonneg m e l Hm) as H1.
  destruct (shr_fexp prec emax m e l) as [mrs' e'] eqn:E1. simpl in H1.
  pose proof (shr_fexp_nonneg
                (round_nearest_even (shr_m mrs') (loc_of_shr_record mrs'))
                e' loc_Exact
                (round_nearest_even_nonneg _ _ H1)) as H2.
  destruct (shr_fexp prec emax _ e' loc_Exact) as [mrs'' e''] eqn:E2.
  simpl in H2.
  destruct (shr_m mrs'') as [| p | p]; [reflexivity | | lia].
  destruct (e'' <=? emax - prec); reflexivity.
Qed.


Lemma div_core_nonneg (m1 m2 : positive) (e1 e2 : Z) :
  0 <= fst (fst (SFdiv_core_binary prec emax (Z.pos m1) e1 (Z.pos m2) e2)).
Proof.
  unfold SFdiv_core_binary.
  set (e' := Z.min _ _). set (s := e1 - e2 - e').
  set (m' := match s with Z.pos _ => Z.shiftl (Z.pos m1) s | 0 => Z.pos m1 | Z.neg _ => 0 end).
  assert (Hm' : 0 <= m').
  { subst m'. destruct s; try lia. apply Z.shiftl_nonneg. lia. }
  pose proof (Z_div_mod m' (Z.pos m2) eq_refl) as Hd.
  destruct (Z.div_eucl m' (Z.pos m2)) as [q r]. simpl.
  destruct Hd as [Hq Hr]. nia.
Qed.

(** a quotient with an ordinary nonzero divisor is NaN only if the
    dividend is *)
Lemma div_not_nan (x y : t) :
  not_nan x -> is_finite_nonzero y = true -> not_nan (div x y).
Proof.
  intros Hx Hy. destruct y as [| | | sy my ey]; try discriminate.
  destruct x as [sx | sx | | sx mx ex]; try discriminate; try reflexivity.
  unfold div, SFdiv.
  pose proof (div_core_nonneg mx my ex ey) as Hq.
  destruct (SFdiv_core_binary _ _ _ _ _ _) as [[mz ez] lz]. simpl in Hq.
  apply binary_round_aux_not_nan, Hq.
Qed.


(** dividing by a zero never gives an ordinary number *)
Lemma div_zero_inf_or_nan (x y : t) :
  is_zero y = true -> is_inf_or_nan (div x y) = true.
Proof.
  destruct y; try discriminate. intros _. destruct x; reflexivity.
Qed.

Lemma mul_inf_or_nan (x k : t) :
  is_inf_or_nan k = true -> is_inf_or_nan (mul x k) = true.
Proof.
  destruct k; try discriminate; intros _; destruct x; reflexivity.
Qed.

Lemma zero_mul_inf_or_nan (x k : t) :
  is_zero x = true -> is_inf_or_nan k = true -> is_nan (mul x k) = true.
Proof.
  destruct x; try discriminate. destruct k; try discriminate; reflexivity.
Qed.

End F64Facts.

(** ** The derived columns on a table given by its rows *)

Section RowLemmas.
Context {T : Type} `{Arith T}.
Implicit Types (rows : list (MeasurementRow T)) (r : MeasurementRow T).

Lemma frame_GridSize rows :
  frame_of_rows rows !! "GridSize" = Some (Int64Series (gridSize <$> rows)).
Proof. unfold frame_of_rows. by simplify_map_eq. Qed.

Lemma frame_ActualTime rows :
  frame_of_rows rows !! "ActualTime" = Some (Float64Series (actualTime <$> rows)).
Proof. unfold frame_of_rows. by simplify_map_eq. Qed.

Lemma frame_StdDev rows :
  frame_of_rows rows !! "StdDev" = Some (Float64Series (stdDev <$> rows)).
Proof. unfold frame_of_rows. by simplify_map_eq. Qed.

Lemma frame_ActualComparisons rows :
  frame_of_rows rows !! "ActualComparisons"
  = Some (Int64Series (actualComparisons <$> rows)).
Proof. unfold frame_of_rows. by simplify_map_eq. Qed.

Lemma frame_TheoreticalComplexity rows :
  frame_of_rows rows !! "TheoreticalComplexity"
  = Some (Float64Series (theoreticalComplexity <$> rows)).
Proof. unfold frame_of_rows. by simplify_map_eq. Qed.

Lemma normalizeTheoretical_rows rows :
  normalizeTheoretical (frame_of_rows rows) =
  match rows with
  | [] => Raise IndexError
  | r0 :: _ => Ok ((fun r => fmul (theoreticalComplexity r) (anchor_scale r0)) <$> rows)
  end.
Proof.
  unfold normalizeTheoretical, getitem.
  rewrite frame_TheoreticalComplexity, frame_ActualTime. simpl.
  destruct rows as [| r0 rest]; [reflexivity |]. simpl.
  unfold series_mul_scalar, scalar_truediv, anchor_scale. simpl.
  do 2 f_equal. by rewrite <- list_fmap_compose.
Qed.

Lemma zip_with_rows {A B C} (f : A -> B -> C)
    (g : MeasurementRow T -> A) (h : MeasurementRow T -> B) rows :
  zip_with f (g <$> rows) (h <$> rows) = (fun r => f (g r) (h r)) <$> rows.
Proof.
  induction rows as [| r rest IH]; [done |].
  rewrite !fmap_cons. simpl. by f_equal.
Qed.

Lemma efficiencyTerms_rows rows :
  efficiencyTerms (frame_of_rows rows) = Ok (row_percent <$> rows).
Proof.
  unfold efficiencyTerms, getitem.
  rewrite frame_ActualComparisons, frame_TheoreticalComplexity. simpl.
  unfold values_mul_int, series_truediv. simpl.
  rewrite <- list_fmap_compose.
  rewrite (zip_with_rows fdiv (of_int ∘ actualComparisons) theoreticalComplexity).
  by rewrite <- list_fmap_compose.
Qed.

Lemma computeEfficiency_rows rows :
  computeEfficiency (frame_of_rows rows) = Ok (nanmean (row_percent <$> rows)).
Proof. unfold computeEfficiency. by rewrite efficiencyTerms_rows. Qed.




End RowLemmas.

(** ** Facts about the exact reading *)

Section ExactFacts.
Implicit Types (q : MeasurementRow Qc) (qrows : list (MeasurementRow Qc)).

Lemma to_Q_pos (s : bool) (m : positive) (e : Z) :
  (0 < inject_Z (Z.pos m) * Qpower 2 e)%Q.
Proof.
  apply Qmult_lt_0_compat; [reflexivity |].
  apply Qpower_0_lt. reflexivity.
Qed.

Lemma to_Qc_nonzero (x : F64.t) :
  F64.is_finite_nonzero x = true -> F64.to_Qc x <> Q2Qc 0.
Proof.
  destruct x as [| | | s m e]; try discriminate. intros _ E.
  apply Q2Qc_eq_iff in E. simpl in E.
  pose proof (to_Q_pos s m e) as Hpos.
  destruct s.
  - apply (Qopp_comp _ _) in E. rewrite Qopp_opp in E.
    rewrite E in Hpos. discriminate.
  - rewrite E in Hpos. discriminate.
Qed.

Lemma exact_anchor (a t : Qc) : t <> Q2Qc 0 -> (t * (a / t))%Qc = a.
Proof. intros Ht. field. exact Ht. Qed.

Lemma exact_rescale (c a t x : Qc) :
  c <> Q2Qc 0 -> t <> Q2Qc 0 -> (c * x * (a / (c * t)))%Qc = (x * (a / t))%Qc.
Proof. intros Hc Ht. field. split; assumption. Qed.





Lemma exact_normalize_rescale (c : Qc) qrows q0 :
  qrows !! 0%nat = Some q0 ->
  c <> Q2Qc 0 -> theoreticalComplexity q0 <> Q2Qc 0 ->
  normalizeTheoretical (frame_of_rows (scale_row c <$> qrows))
  = normalizeTheoretical (frame_of_rows qrows).
Proof.
  intros H0 Hc Ht.
  destruct qrows as [| q rest]; [discriminate |].
  injection H0 as ->.
  rewrite !normalizeTheoretical_rows.
  change (scale_row c <$> q0 :: rest) with (scale_row c q0 :: (scale_row c <$> rest)).
  cbv beta iota. f_equal.
  change (scale_row c q0 :: (scale_row c <$> rest)) with (scale_row c <$> q0 :: rest).
  rewrite <- list_fmap_compose. apply list_fmap_ext.
  intros i r _. unfold anchor_scale. simpl.
  apply exact_rescale; assumption.
Qed.

End ExactFacts.

(** ** The normalised theoretical curve (line 12) *)

Section Normalize.
Import F64 F64Facts Samples.
Implicit Types (rows : list (MeasurementRow F64.t)) (r : MeasurementRow F64.t).

(** C1. For every table with at least one row whose first
    theoretical value is nonzero, [normalizeTheoretical] returns a
    sequence as long as the table whose element [i] is
    [rows[i].theoreticalComplexity * (rows[0].actualTime /
    rows[0].theoreticalComplexity)], product and quotient being the
    float64 operations the script performs. *)
Theorem normalizeTheoretical_elements rows r0 :
  rows !! 0%nat = Some r0 ->
  is_zero (theoreticalComplexity r0) = false ->
  exists out,
    normalizeTheoretical (frame_of_rows rows) = Ok out /\
    length out = length rows /\
    forall i r, rows !! i = Some r ->
      out !! i = Some (mul (theoreticalComplexity r)
                           (div (actualTime r0) (theoreticalComplexity r0))).
Proof.
  intros H0 _. rewrite normalizeTheoretical_rows.
  destruct rows as [| r' rest]; [discriminate |].
  injection H0 as ->.
  eexists. split; [reflexivity |]. split.
  - apply length_fmap.
  - intros i r Hi. rewrite list_lookup_fmap, Hi. reflexivity.
Qed.

Lemma normalizeTheoretical_elements_witness :
  exists out,
    normalizeTheoretical (frame_of_rows sample_rows) = Ok out /\
    length out = length sample_rows /\
    forall i r, sample_rows !! i = Some r ->
      out !! i = Some (mul (theoreticalComplexity r)
                           (div (decimal 100 1) (of_Z 96))).
Proof.
  apply (normalizeTheoretical_elements sample_rows
           (row 8 (decimal 100 1) (decimal 5 1) 100 (of_Z 96)));
    reflexivity.
Defined.

(** C3, as stated, fails: with a first theoretical value of zero the
    call returns, and what it returns is NaN and an infinity. *)
Lemma zero_anchor_returns_nan_and_inf :
  (is_zero <$> (theoreticalComplexity <$> zero_anchor_rows !! 0%nat)) = Some true /\
  normalizeTheoretical (frame_of_rows zero_anchor_rows)
  = Ok [S754_nan; S754_infinity false].
Proof. split; vm_compute; reflexivity. Qed.

(** C3, amended. On the empty table [normalizeTheoretical] fails: the
    positional lookup of row 0 raises [IndexError].  On a table whose
    first theoretical value is zero it does not fail: it returns a
    sequence as long as the table in which every element is an
    infinity or NaN, the first one being NaN. *)
Theorem normalizeTheoretical_degenerate rows :
  (rows = [] -> normalizeTheoretical (frame_of_rows rows) = Raise IndexError) /\
  (forall r0, rows !! 0%nat = Some r0 ->
     is_zero (theoreticalComplexity r0) = true ->
     exists out,
       normalizeTheoretical (frame_of_rows rows) = Ok out /\
       length out = length rows /\
       Forall (fun x => is_inf_or_nan x = true) out /\
       is_nan <$> out !! 0%nat = Some true).
Proof.
  split.
  - intros ->. exact (normalizeTheoretical_rows []).
  - intros r0 H0 Hz. rewrite normalizeTheoretical_rows.
    destruct rows as [| r' rest]; [discriminate |].
    injection H0 as ->.
    assert (Hk : is_inf_or_nan (anchor_scale r0) = true)
      by (apply div_zero_inf_or_nan, Hz).
    eexists. split; [reflexivity |]. split; [apply length_fmap |]. split.
    + apply Forall_fmap, Forall_forall. intros r _.
      apply mul_inf_or_nan, Hk.
    + simpl. f_equal. apply zero_mul_inf_or_nan; assumption.
Qed.

Lemma normalizeTheoretical_degenerate_witness :
  normalizeTheoretical (frame_of_rows ([] : list (MeasurementRow F64.t)))
  = Raise IndexError /\
  exists out,
    normalizeTheoretical (frame_of_rows zero_anchor_rows) = Ok out /\
    length out = length zero_anchor_rows /\
    Forall (fun x => is_inf_or_nan x = true) out /\
    is_nan <$> out !! 0%nat = Some true.
Proof.
  split.
  - apply (proj1 (normalizeTheoretical_degenerate [])). reflexivity.
  - apply (proj2 (normalizeTheoretical_degenerate zero_anchor_rows)
             (row 8 (decimal 100 1) (decimal 5 1) 100 (of_Z 0)));
      reflexivity.
Defined.

(** C6, as stated, fails: with the anchor [ActualTime = 1.0],
    [TheoreticalComplexity = 49.0] the first element is
    [49.0 * (1.0 / 49.0) = 1 - 2^-53], which is not [1.0]. *)
Lemma first_element_not_anchor :
  exists r0 x,
    rounding_rows !! 0%nat = Some r0 /\
    is_zero (theoreticalComplexity r0) = false /\
    normalizeTheoretical (frame_of_rows rounding_rows) = Ok [x] /\
    x = S754_finite false 9007199254740991 (-53) /\
    eqb x (actualTime r0) = false.
Proof. do 2 eexists. repeat split; vm_compute; reflexivity. Qed.

(** C6, amended. For every table with at least one row whose first
    theoretical value is an ordinary nonzero number, the first element
    of [normalizeTheoretical] is the float64 value
    [rows[0].theoreticalComplexity * (rows[0].actualTime /
    rows[0].theoreticalComplexity)]; the same table evaluated without
    rounding gives [rows[0].actualTime] exactly. *)
Theorem first_element_anchor rows r0 :
  rows !! 0%nat = Some r0 ->
  is_finite_nonzero (theoreticalComplexity r0) = true ->
  (exists out,
     normalizeTheoretical (frame_of_rows rows) = Ok out /\
     out !! 0%nat = Some (mul (theoreticalComplexity r0)
                              (div (actualTime r0) (theoreticalComplexity r0)))) /\
  (exists qout,
     normalizeTheoretical (frame_of_rows (exact_row <$> rows)) = Ok qout /\
     qout !! 0%nat = Some (to_Qc (actualTime r0))).
Proof.
  intros H0 Hfin. rewrite !normalizeTheoretical_rows.
  destruct rows as [| r' rest]; [discriminate |].
  injection H0 as ->. split.
  - eexists. split; reflexivity.
  - rewrite fmap_cons. eexists. split; [reflexivity |].
    simpl. f_equal. unfold anchor_scale. simpl.
    apply exact_anchor, to_Qc_nonzero, Hfin.
Qed.

Lemma first_element_anchor_witness :
  (exists out,
     normalizeTheoretical (frame_of_rows rounding_rows) = Ok out /\
     out !! 0%nat = Some (mul (of_Z 49) (div (of_Z 1) (of_Z 49)))) /\
  (exists qout,
     normalizeTheoretical (frame_of_rows (exact_row <$> rounding_rows)) = Ok qout /\
     qout !! 0%nat = Some (to_Qc (of_Z 1))).
Proof.
  apply (first_element_anchor rounding_rows
           (row 8 (of_Z 1) (decimal 5 1) 100 (of_Z 49)));
    reflexivity.
Defined.

(** C9, as stated, fails: multiplying the theoretical column of the
    one-row table [ActualTime = 1.0], [TheoreticalComplexity = 1.0] by
    [c = 49.0] changes the output from [1.0] to [1 - 2^-53]. *)
Lemma rescaling_changes_output :
  is_positive (of_Z 49) = true /\
  (is_zero <$> (theoreticalComplexity <$> unit_rows !! 0%nat)) = Some false /\
  normalizeTheoretical (frame_of_rows unit_rows)
  = Ok [S754_finite false 4503599627370496 (-52)] /\
  normalizeTheoretical (frame_of_rows (scale_row (of_Z 49) <$> unit_rows))
  = Ok [S754_finite false 9007199254740991 (-53)] /\
  normalizeTheoretical (frame_of_rows (scale_row (of_Z 49) <$> unit_rows))
  <> normalizeTheoretical (frame_of_rows unit_rows).
Proof.
  split; [vm_compute; reflexivity |].
  split; [vm_compute; reflexivity |].
  split; [vm_compute; reflexivity |].
  split; [vm_compute; reflexivity |].
  intros E. vm_compute in E. discriminate.
Qed.

(** C9, amended. For every table with at least one row whose first
    theoretical value is an ordinary nonzero number and every positive
    constant [c]: evaluated without rounding, multiplying the
    theoretical column by [c] leaves the output of
    [normalizeTheoretical] unchanged; in float64 both calls return and
    the outputs have the same length. *)
Theorem rescaling_invariant rows r0 (c : F64.t) :
  rows !! 0%nat = Some r0 ->
  is_finite_nonzero (theoreticalComplexity r0) = true ->
  is_positive c = true ->
  normalizeTheoretical (frame_of_rows (scale_row (to_Qc c) <$> (exact_row <$> rows)))
  = normalizeTheoretical (frame_of_rows (exact_row <$> rows)) /\
  exists out out',
    normalizeTheoretical (frame_of_rows rows) = Ok out /\
    normalizeTheoretical (frame_of_rows (scale_row c <$> rows)) = Ok out' /\
    length out' = length out.
Proof.
  intros H0 Hfin Hc. split.
  - apply (exact_normalize_rescale (to_Qc c) _ (exact_row r0)).
    + rewrite list_lookup_fmap, H0. reflexivity.
    + apply to_Qc_nonzero. destruct c as [| | | []]; done.
    + apply to_Qc_nonzero, Hfin.
  - rewrite !normalizeTheoretical_rows.
    destruct rows as [| r' rest]; [discriminate |].
    rewrite fmap_cons. do 2 eexists. split; [reflexivity |].
    split; [reflexivity |].
    simpl. rewrite !length_fmap. reflexivity.
Qed.

Lemma rescaling_invariant_witness :
  normalizeTheoretical
    (frame_of_rows (scale_row (to_Qc (of_Z 49)) <$> (exact_row <$> unit_rows)))
  = normalizeTheoretical (frame_of_rows (exact_row <$> unit_rows)) /\
  exists out out',
    normalizeTheoretical (frame_of_rows unit_rows) = Ok out /\
    normalizeTheoretical (frame_of_rows (scale_row (of_Z 49) <$> unit_rows)) = Ok out' /\
    length out' = length out.
Proof.
  apply (rescaling_invariant unit_rows
           (row 8 (of_Z 1) (decimal 5 1) 100 (of_Z 1)) (of_Z 49));
    reflexivity.
Defined.

End Normalize.

(** ** The efficiency percentage (line 33) *)

Section Efficiency.
Import F64 F64Facts Samples MoreSamples.
Implicit Types (rows : list (MeasurementRow F64.t)) (r : MeasurementRow F64.t).






(** C4, as stated, fails: on the three-row example the result is not
    within 0.05 of 99.1. *)
Lemma sample_efficiency_not_99_1 :
  exists x,
    computeEfficiency sample_frame = Ok x /\ near_tenths x 991 = false.
Proof. eexists. split; vm_compute; reflexivity. Qed.

(** C4, amended. On the three-row example [computeEfficiency] returns
    the float64 value [7024657621902223 * 2^-46]; it equals
    [mean(100/96, 500/512, 2500/2560) * 100] computed in float64 and
    is approximately 99.8 percent (within 0.05 of 99.8). *)
Theorem sample_efficiency :
  computeEfficiency sample_frame = Ok (S754_finite false 7024657621902223 (-46)) /\
  mul (arithmetic_mean [div (of_Z 100) (of_Z 96); div (of_Z 500) (of_Z 512);
                        div (of_Z 2500) (of_Z 2560)]) (of_Z 100)
  = S754_finite false 7024657621902223 (-46) /\
  near_tenths (S754_finite false 7024657621902223 (-46)) 998 = true.
Proof. repeat split; vm_compute; reflexivity. Qed.




(** C10. Two tables that agree on the columns [ActualComparisons] and
    [TheoreticalComplexity] have the same [computeEfficiency], whatever
    their other columns hold. *)
Theorem efficiency_ignores_timing (df1 df2 : gmap string (Series F64.t)) :
  df1 !! "ActualComparisons" = df2 !! "ActualComparisons" ->
  df1 !! "TheoreticalComplexity" = df2 !! "TheoreticalComplexity" ->
  computeEfficiency df1 = computeEfficiency df2.
Proof.
  intros Hac Htc.
  unfold computeEfficiency, efficiencyTerms, getitem.
  rewrite Hac, Htc. reflexivity.
Qed.

Lemma efficiency_ignores_timing_witness :
  computeEfficiency (frame_of_rows sample_rows)
  = computeEfficiency (frame_of_rows sample_rows_retimed).
Proof.
  apply (efficiency_ignores_timing
           (frame_of_rows sample_rows) (frame_of_rows sample_rows_retimed));
    reflexivity.
Defined.

End Efficiency.

(** ** The run as a whole *)

Section Run.
Context {T : Type} `{Arith T}.
Implicit Types (w : World T) (t : gmap string (Series T)).

Lemma bind_preserves_df {A B} (m : M T A) (k : A -> M T B) :
  preserves_df m -> (forall a, preserves_df (k a)) -> preserves_df (bind m k).
Proof.
  intros Hm Hk w. unfold bind.
  specialize (Hm w). destruct (m w) as [[a | e] w1]; simpl in *.
  - rewrite Hk. exact Hm.
  - exact Hm.
Qed.

Lemma with_df_preserves_df {A} (f : gmap string (Series T) -> result A) :
  preserves_df (with_df f).
Proof. intros w. unfold with_df. destruct (df w) eqn:E; exact E. Qed.

Lemma draw_preserves_df (c : Call T) : preserves_df (draw c).
Proof. intros w. unfold draw. destruct (pyplot_error w c); reflexivity. Qed.

Lemma savefig_preserves_df (path : string) : preserves_df (savefig (T:=T) path).
Proof.
  intros w. unfold savefig.
  destruct (render_error w (figure w)); [reflexivity |].
  destruct (can_write w); reflexivity.
Qed.

Lemma print_preserves_df (msg : string) : preserves_df (print (T:=T) msg).
Proof. intros w. reflexivity. Qed.

Create HintDb frame discriminated.
Hint Resolve with_df_preserves_df draw_preserves_df savefig_preserves_df
  print_preserves_df : frame.

Ltac frame_steps :=
  repeat (apply bind_preserves_df; [| intros ?]);
  unfold column, normalize_step, efficiency_step;
  auto with frame.

Lemma normalize_step_preserves_df : preserves_df (normalize_step (T:=T)).
Proof. frame_steps. Qed.

Lemma efficiency_step_preserves_df : preserves_df (efficiency_step (T:=T)).
Proof. frame_steps. Qed.

Lemma render_preserves_df : preserves_df (render (T:=T)).
Proof. unfold render, render_panel_a, render_panel_b, annotate. frame_steps. Qed.

Lemma save_preserves_df : preserves_df (save (T:=T)).
Proof. unfold save. frame_steps. Qed.

Lemma report_preserves_df : preserves_df (report (T:=T)).
Proof. unfold report. frame_steps. Qed.

Lemma load_found w t :
  files w !! csv_path = Some (Table t) -> load w = (Ok tt, loaded w t).
Proof. intros Hf. unfold load, bind, read_csv. rewrite Hf. reflexivity. Qed.

Lemma main_found w t :
  files w !! csv_path = Some (Table t) ->
  main w = bind render (fun _ => bind save (fun _ => report)) (loaded w t).
Proof. intros Hf. unfold main at 1, bind at 1. rewrite (load_found w t Hf). reflexivity. Qed.

Lemma bind_preserves_files {A B} (m : M T A) (k : A -> M T B) :
  preserves_files m -> (forall a, preserves_files (k a)) -> preserves_files (bind m k).
Proof.
  intros Hm Hk w. unfold bind.
  specialize (Hm w). destruct (m w) as [[a | e] w1]; simpl in *.
  - rewrite Hk. exact Hm.
  - exact Hm.
Qed.

Lemma main_preserves_files : preserves_files (main (T:=T)).
Proof.
  unfold main, load, render, render_panel_a, render_panel_b, annotate, save, report.
  repeat (apply bind_preserves_files; [| intros ?]);
    intros w;
    unfold column, normalize_step, efficiency_step, with_df, read_csv, assign_df,
      draw, savefig, print;
    repeat case_match; reflexivity.
Qed.

End Run.

Section ScriptFacts.
Context {T : Type} `{Arith T}.
Implicit Types (w : World T) (s : Series T).

Lemma iloc_raise s i e : iloc s i = Raise e -> e = IndexError.
Proof.
  destruct s as [xs | xs | xs]; simpl; destruct (xs !! i) as [x |];
    try destruct x; congruence.
Qed.

Lemma iloc_raise_empty s e : iloc s 0 = Raise e -> nonempty s = false.
Proof.
  destruct s as [[| x xs] | [| x xs] | [| x xs]]; simpl;
    try destruct x; congruence.
Qed.

Lemma iloc_text s i x : iloc s i = Ok (Str x) -> has_text s = true.
Proof.
  destruct s as [xs | xs | xs]; simpl;
    destruct (xs !! i) as [c |] eqn:E; try destruct c; try congruence.
  intros _. apply existsb_exists. exists (Text s).
  split; [| reflexivity].
  apply list_elem_of_In, list_elem_of_lookup. eauto.
Qed.

Lemma pyplot_error_refused w c e :
  plot_error w c = Some e -> pyplot_error w c = Some e.
Proof. intros E. unfold pyplot_error. rewrite E. reflexivity. Qed.

Lemma pyplot_error_negative w x y yerr :
  plot_error w (Errorbar x y yerr) = None ->
  yerr_negative yerr = true ->
  pyplot_error w (Errorbar x y yerr) = Some ValueError.
Proof. intros E1 E2. unfold pyplot_error. rewrite E1, E2. reflexivity. Qed.

End ScriptFacts.

(** case analysis along the steps of the script *)
Ltac open_script :=
  unfold after_load, render, render_panel_a, render_panel_b, annotate, save,
    report, column, normalize_step, efficiency_step, with_df, bind, draw,
    savefig, print, loaded, pyplot_error, normalizeTheoretical,
    computeEfficiency, efficiencyTerms, series_mul_scalar, series_truediv,
    scalar_truediv, to_float, getitem, rbind, confirmation;
  cbn [df files can_write plot_error render_error figure saved stdout fst snd].

Ltac script_split t :=
  match goal with
  | E : t = _ |- _ => rewrite E
  | _ => destruct t eqn:?
  end.

Ltac script_case :=
  match goal with
  | |- context [?m !! ?k] =>
      lazymatch type of m with
      | gmap _ _ => script_split (m !! k)
      end
  | |- context [iloc ?s ?i] => script_split (iloc s i)
  | |- context [scalar_float ?x] => is_var x; destruct x
  | |- context [has_text ?s] => script_split (has_text s)
  | |- context [plot_error ?w ?c] => script_split (plot_error w c)
  | |- context [yerr_negative ?s] => script_split (yerr_negative s)
  | |- context [render_error ?w ?f] => script_split (render_error w f)
  | |- context [if can_write ?w then _ else _] => script_split (can_write w)
  end;
  cbn [df files can_write plot_error render_error figure saved stdout fst snd
       scalar_float andb negb length app].

(** what the equations left by [script_case] say about the exceptions *)
Ltac script_facts :=
  repeat match goal with
         | E : iloc ?s 0 = Raise ?e |- _ =>
             is_var e;
             pose proof (iloc_raise_empty s e E);
             apply iloc_raise in E as ->
         | E : iloc ?s ?i = Ok (Str ?x) |- _ =>
             lazymatch goal with
             | _ : has_text s = true |- _ => fail
             | _ => pose proof (iloc_text s i x E)
             end
         end.

Section RunClaims.
Import F64 Samples.
Implicit Types (w : World F64.t) (t : gmap string (Series F64.t)).

(** C8. Once the table is loaded, no operation changes it: each of
    the normalisation, the efficiency computation, the rendering and
    the saving leaves [df] bound to the loaded table, and at the end of
    the run (however it ends) [df] still is the table of the file and
    the file itself is as it was. *)
Theorem table_unchanged w t :
  files w !! csv_path = Some (Table t) ->
  (df (snd (main w)) = Some t /\ files (snd (main w)) = files w) /\
  (forall w', df w' = Some t ->
     df (snd (normalize_step w')) = Some t /\
     df (snd (efficiency_step w')) = Some t /\
     df (snd (render w')) = Some t /\
     df (snd (save w')) = Some t).
Proof.
  intros Hf. split; [split |].
  - rewrite (main_found w t Hf).
    assert (Hrest : preserves_df (T:=F64.t)
                      (bind render (fun _ => bind save (fun _ => report)))).
    { apply bind_preserves_df; [apply render_preserves_df | intros _].
      apply bind_preserves_df; [apply save_preserves_df | intros _].
      apply report_preserves_df. }
    rewrite Hrest. reflexivity.
  - apply main_preserves_files.
  - intros w' Hw'.
    rewrite normalize_step_preserves_df, efficiency_step_preserves_df,
      render_preserves_df, save_preserves_df.
    repeat split; exact Hw'.
Qed.

Lemma table_unchanged_witness :
  (df (snd (main sample_world)) = Some sample_frame /\
   files (snd (main sample_world)) = files sample_world) /\
  (forall w', df w' = Some sample_frame ->
     df (snd (normalize_step w')) = Some sample_frame /\
     df (snd (efficiency_step w')) = Some sample_frame /\
     df (snd (render w')) = Some sample_frame /\
     df (snd (save w')) = Some sample_frame).
Proof.
  apply (table_unchanged sample_world sample_frame). reflexivity.
Defined.

(** C5, as stated, fails: on a CSV without the [StdDev] column [load]
    returns normally. *)
Lemma load_accepts_missing_column :
  no_stddev_frame !! "StdDev" = None /\
  files no_stddev_world !! csv_path = Some (Table no_stddev_frame) /\
  fst (load no_stddev_world) = Ok tt /\
  df (snd (load no_stddev_world)) = Some no_stddev_frame.
Proof. repeat split; vm_compute; reflexivity. Qed.

(** C5, amended. For every CSV file that [pd.read_csv] reads into a
    table lacking a required column, [load] returns normally, with [df]
    bound to that table; the run then fails and writes no image.  The
    exception is [KeyError] for the first column, in the order of the
    script's lookups ([GridSize], [ActualTime], [StdDev],
    [TheoreticalComplexity], [ActualComparisons]), that the table lacks,
    unless an earlier step fails first; it is then [IndexError]
    ([ActualTime] or [TheoreticalComplexity] has no entry at position 0),
    [TypeError] (one of these two columns holds a text), or the exception
    of a plotting call. *)
Theorem missing_column_fails_at_use w t c :
  files w !! csv_path = Some (Table t) ->
  c ∈ required_columns ->
  t !! c = None ->
  (fst (load w) = Ok tt /\ df (snd (load w)) = Some t) /\
  exists e,
    fst (main w) = Raise e /\
    saved (snd (main w)) = saved w /\
    ((exists c', first_missing t = Some c' /\ e = KeyError c') \/
     (e = IndexError /\
      exists s, (t !! "ActualTime" = Some s \/ t !! "TheoreticalComplexity" = Some s) /\
                nonempty s = false) \/
     (e = TypeError /\
      exists s, (t !! "ActualTime" = Some s \/ t !! "TheoreticalComplexity" = Some s) /\
                has_text s = true) \/
     (exists call, pyplot_error w call = Some e)).
Proof.
  intros Hf Hc Ht. split; [by rewrite (load_found w t Hf) |].
  rewrite (main_found w t Hf). fold (after_load (T:=F64.t)).
  unfold required_columns in Hc.
  repeat (apply elem_of_cons in Hc as [-> | Hc]);
    [ .. | by apply elem_of_nil in Hc ];
    open_script; repeat script_case;
    script_facts; try congruence;
    (eexists; split; [reflexivity |]; split; [reflexivity |]);
    first
      [ left; eexists; split; [| reflexivity];
        unfold first_missing, script_lookup_order; simpl List.find;
        repeat match goal with
               | E : t !! _ = _ |- _ => rewrite E
               end; reflexivity
      | right; left; split; [reflexivity |]; eauto
      | right; right; left; split; [reflexivity |]; eauto
      | right; right; right; eauto using pyplot_error_refused, pyplot_error_negative ].
Qed.

Lemma missing_column_fails_at_use_witness :
  (fst (load no_stddev_world) = Ok tt /\
   df (snd (load no_stddev_world)) = Some no_stddev_frame) /\
  exists e,
    fst (main no_stddev_world) = Raise e /\
    saved (snd (main no_stddev_world)) = saved no_stddev_world /\
    ((exists c', first_missing no_stddev_frame = Some c' /\ e = KeyError c') \/
     (e = IndexError /\
      exists s, (no_stddev_frame !! "ActualTime" = Some s \/
                 no_stddev_frame !! "TheoreticalComplexity" = Some s) /\
                nonempty s = false) \/
     (e = TypeError /\
      exists s, (no_stddev_frame !! "ActualTime" = Some s \/
                 no_stddev_frame !! "TheoreticalComplexity" = Some s) /\
                has_text s = true) \/
     (exists call, pyplot_error no_stddev_world call = Some e)).
Proof.
  apply (missing_column_fails_at_use no_stddev_world no_stddev_frame "StdDev").
  - reflexivity.
  - unfold required_columns. do 2 apply list_elem_of_further. apply list_elem_of_here.
  - reflexivity.
Defined.

End RunClaims.

(** ** Rounding never loses a number that is in range *)

Module F64Rounding.
Import F64 F64Facts F64Range.

Lemma digits2_pos_lower (m : positive) :
  2 ^ (Z.pos (digits2_pos m) - 1) <= Z.pos m.
Proof.
  induction m as [p IH | p IH |]; simpl digits2_pos.
  - rewrite Pos2Z.inj_succ.
    replace (Z.succ (Z.pos (digits2_pos p)) - 1)
      with (Z.succ (Z.pos (digits2_pos p) - 1)) by lia.
    rewrite Z.pow_succ_r by lia. lia.
  - rewrite Pos2Z.inj_succ.
    replace (Z.succ (Z.pos (digits2_pos p)) - 1)
      with (Z.succ (Z.pos (digits2_pos p) - 1)) by lia.
    rewrite Z.pow_succ_r by lia. lia.
  - reflexivity.
Qed.

Lemma shr_1_half (mrs : shr_record) :
  0 <= shr_m mrs -> shr_m (shr_1 mrs) = shr_m mrs / 2.
Proof.
  destruct mrs as [m r s]. simpl. intros Hm.
  rewrite <- Z.div2_div.
  destruct m as [| p | p]; [reflexivity | | lia].
  destruct p; reflexivity.
Qed.

Lemma pow2_xI (p : positive) : 2 ^ Z.pos p~1 = 2 * 2 ^ Z.pos p * 2 ^ Z.pos p.
Proof.
  replace (Z.pos p~1) with (1 + Z.pos p + Z.pos p) by lia.
  rewrite !Z.pow_add_r by lia. reflexivity.
Qed.

Lemma pow2_xO (p : positive) : 2 ^ Z.pos p~0 = 2 ^ Z.pos p * 2 ^ Z.pos p.
Proof.
  replace (Z.pos p~0) with (Z.pos p + Z.pos p) by lia.
  rewrite Z.pow_add_r by lia. reflexivity.
Qed.

Lemma iter_shr_1_div (p : positive) :
  forall mrs, 0 <= shr_m mrs ->
    shr_m (SpecFloat.iter_pos shr_1 p mrs) = shr_m mrs / 2 ^ Z.pos p.
Proof.
  induction p as [p IH | p IH |]; intros mrs Hm; simpl SpecFloat.iter_pos.
  - rewrite IH by (apply iter_shr_1_nonneg, shr_1_nonneg, Hm).
    rewrite IH by (apply shr_1_nonneg, Hm).
    rewrite shr_1_half by exact Hm.
    assert (Hk : 0 < 2 ^ Z.pos p) by (apply Z.pow_pos_nonneg; lia).
    rewrite pow2_xI, <- !Z.div_div by lia. reflexivity.
  - rewrite IH by (apply iter_shr_1_nonneg, Hm).
    rewrite IH by exact Hm.
    assert (Hk : 0 < 2 ^ Z.pos p) by (apply Z.pow_pos_nonneg; lia).
    rewrite pow2_xO, <- Z.div_div by lia. reflexivity.
  - rewrite shr_1_half by exact Hm. reflexivity.
Qed.

(** the exponent after a shift is never below [emin] *)
Lemma shr_fexp_exponent (m e : Z) (l : location) :
  emin <= snd (shr_fexp prec emax m e l).
Proof.
  unfold shr_fexp, shr, fexp, emin, SpecFloat.emin, prec, emax.
  destruct (Z.max (Zdigits2 m + e - 53) (3 - 1024 - 53) - e) eqn:En; simpl; lia.
Qed.

(** a positive mantissa in range keeps at least one digit *)
Lemma shr_fexp_positive (m : positive) (e : Z) (l : location) :
  emin <= e -> 0 < shr_m (fst (shr_fexp prec emax (Z.pos m) e l)).
Proof.
  intros He. unfold shr_fexp, shr, fexp. simpl Zdigits2.
  assert (Hm : shr_m (shr_record_of_loc (Z.pos m) l) = Z.pos m)
    by (destruct l as [| []]; reflexivity).
  destruct (Z.max (Z.pos (digits2_pos m) + e - prec) (SpecFloat.emin prec emax) - e)
    as [| n | n] eqn:En; simpl fst; try (rewrite Hm; lia).
  rewrite iter_shr_1_div by (rewrite Hm; lia). rewrite Hm.
  apply Z.div_str_pos. split; [apply Z.pow_pos_nonneg; lia |].
  transitivity (2 ^ (Z.pos (digits2_pos m) - 1)); [| apply digits2_pos_lower].
  apply Z.pow_le_mono_r; [lia |].
  unfold emin, SpecFloat.emin, prec, emax in *. lia.
Qed.

Lemma round_nearest_even_positive (m : Z) (l : location) :
  0 < m -> 0 < round_nearest_even m l.
Proof.
  intros Hm. destruct l as [| []]; simpl; try lia.
  destruct (Z.even m); lia.
Qed.

(** the result of rounding has its exponent in range *)
Lemma binary_round_aux_above_emin (s : bool) (m e : Z) (l : location) :
  above_emin (binary_round_aux prec emax s m e l).
Proof.
  unfold binary_round_aux.
  destruct (shr_fexp prec emax m e l) as [mrs' e'].
  pose proof (shr_fexp_exponent
                (round_nearest_even (shr_m mrs') (loc_of_shr_record mrs'))
                e' loc_Exact) as He.
  destruct (shr_fexp prec emax _ e' loc_Exact) as [mrs'' e'']. simpl in He.
  destruct (shr_m mrs''); simpl; try exact I.
  destruct (e'' <=? emax - prec); simpl; [exact He | exact I].
Qed.

(** a zero result carries the sign it was given *)
Lemma binary_round_aux_zero_sign (s : bool) (m e : Z) (l : location) :
  is_neg_zero (binary_round_aux prec emax s m e l) = true -> s = true.
Proof.
  unfold binary_round_aux.
  destruct (shr_fexp prec emax m e l) as [mrs' e'].
  destruct (shr_fexp prec emax _ e' loc_Exact) as [mrs'' e''].
  destruct (shr_m mrs''); simpl; try discriminate.
  - destruct s; [reflexivity | discriminate].
  - destruct (e'' <=? emax - prec); discriminate.
Qed.

(** rounding a nonzero value whose exponent is in range gives an
    ordinary number or an infinity: it does not underflow to zero *)
Lemma binary_round_aux_nonzero (s : bool) (m : positive) (e : Z) (l : location) :
  emin <= e ->
  is_zero (binary_round_aux prec emax s (Z.pos m) e l) = false /\
  is_nan (binary_round_aux prec emax s (Z.pos m) e l) = false.
Proof.
  intros He. unfold binary_round_aux.
  pose proof (shr_fexp_positive m e l He) as H1.
  pose proof (shr_fexp_exponent (Z.pos m) e l) as He1.
  destruct (shr_fexp prec emax (Z.pos m) e l) as [mrs' e']. simpl in H1, He1.
  pose proof (round_nearest_even_positive _ (loc_of_shr_record mrs') H1) as H2.
  destruct (round_nearest_even (shr_m mrs') (loc_of_shr_record mrs'))
    as [| m2 | m2]; try lia.
  pose proof (shr_fexp_positive m2 e' loc_Exact He1) as H3.
  destruct (shr_fexp prec emax (Z.pos m2) e' loc_Exact) as [mrs'' e''].
  simpl in H3.
  destruct (shr_m mrs''); try lia.
  destruct (e'' <=? emax - prec); split; reflexivity.
Qed.

Lemma binary_round_nonzero (s : bool) (m : positive) (e : Z) :
  emin <= e ->
  is_zero (binary_round prec emax s m e) = false /\
  is_nan (binary_round prec emax s m e) = false.
Proof.
  intros He. unfold binary_round.
  destruct (shl_align m e (fexp prec emax (Z.pos (digits2_pos m) + e)))
    as [mz ez] eqn:Es.
  apply binary_round_aux_nonzero.
  unfold shl_align in Es.
  destruct (fexp prec emax (Z.pos (digits2_pos m) + e) - e) eqn:Ed;
    injection Es as <- <-; try exact He.
  unfold fexp, emin. lia.
Qed.

Lemma binary_round_above_emin (s : bool) (m : positive) (e : Z) :
  above_emin (binary_round prec emax s m e).
Proof.
  unfold binary_round. destruct (shl_align _ _ _) as [mz ez].
  apply binary_round_aux_above_emin.
Qed.

(** a nonzero integer converts to a nonzero float *)
Lemma of_Z_nonzero (z : Z) :
  z <> 0 -> is_zero (of_Z z) = false /\ is_nan (of_Z z) = false.
Proof.
  intros Hz. unfold of_Z, binary_normalize.
  destruct z as [| p | p]; [done | |];
    apply binary_round_nonzero; unfold emin, SpecFloat.emin, prec, emax; lia.
Qed.

Lemma mul_above_emin (x y : t) : above_emin (mul x y).
Proof.
  destruct x as [sx | sx | | sx mx ex], y as [sy | sy | | sy my ey];
    try exact I.
  apply binary_round_aux_above_emin.
Qed.

(** one step of the running sum *)
Lemma add_sum_state (a x : t) :
  sum_state a -> above_emin x -> sum_state (add a x).
Proof.
  intros [Hz Ha] Hx. unfold sum_state.
  destruct a as [sa | sa | | sa ma ea], x as [sx | sx | | sx mx ex];
    try (split; [reflexivity | exact I]);
    try (destruct sa, sx; split; first [reflexivity | exact I | discriminate]).
  - destruct sa; [discriminate |]. split; [reflexivity | exact Hx].
  - split; [reflexivity | exact Ha].
  - unfold add, SFadd. simpl in Ha, Hx.
    set (ez := Z.min ea ex).
    assert (Hez : emin <= ez) by (subst ez; lia).
    destruct (cond_Zopp sa (Z.pos (fst (shl_align ma ea ez)))
              + cond_Zopp sx (Z.pos (fst (shl_align mx ex ez)))) as [| p | p];
      unfold binary_normalize.
    + split; [reflexivity | exact I].
    + split; [| apply binary_round_above_emin].
      apply not_true_is_false. intros E.
      unfold binary_round in E. destruct (shl_align _ _ _) in E.
      apply binary_round_aux_zero_sign in E. discriminate.
    + split; [| apply binary_round_above_emin].
      destruct (binary_round_nonzero true p ez Hez) as [Hnz _].
      destruct (binary_round prec emax true p ez); try reflexivity.
      discriminate.
Qed.

(** adding the zero that stands for a skipped NaN changes nothing *)
Lemma add_zero_r (a : t) :
  is_neg_zero a = false -> add a (of_Z 0) = a.
Proof. destruct a as [[] | | |]; try discriminate; reflexivity. Qed.

Lemma foldl_add_drop_nan (v : list t) :
  Forall above_emin v ->
  forall a, sum_state a ->
    foldl add a (fill_nan v) = foldl add a (drop_nan v).
Proof.
  unfold fill_nan, drop_nan.
  induction 1 as [| x v Hx _ IH]; intros a Ha; [reflexivity |].
  rewrite fmap_cons, filter_cons.
  destruct (isnan x) eqn:Ex.
  - rewrite decide_False by (simpl; tauto). simpl foldl.
    change (fadd a (of_int 0)) with (add a (of_Z 0)).
    rewrite add_zero_r by apply Ha. apply IH, Ha.
  - rewrite decide_True by (simpl; tauto).
    simpl foldl. apply IH, add_sum_state; assumption.
Qed.

Lemma length_drop_nan (v : list t) :
  (length v - count_nan v)%nat = length (drop_nan v).
Proof.
  unfold count_nan, drop_nan.
  induction v as [| x v IH]; [reflexivity |].
  rewrite !filter_cons.
  pose proof (length_filter (fun x => Is_true (isnan x)) v) as Hle.
  destruct (isnan x) eqn:Ex.
  - rewrite decide_True by (simpl; tauto).
    rewrite decide_False by (simpl; tauto).
    simpl length. cbn [isnan binary64] in *. lia.
  - rewrite decide_False by (simpl; tauto).
    rewrite decide_True by (simpl; tauto).
    simpl length. cbn [isnan binary64] in *. lia.
Qed.

(** fewer than 8 values are added from the left *)
Lemma pairwise_sum_short (f : nat) (v : list t) :
  (length v < 8)%nat -> pairwise_sum f v = sum_left (of_Z 0) v.
Proof.
  intros Hn. apply Nat.ltb_lt in Hn.
  destruct f; simpl; rewrite Hn; reflexivity.
Qed.

(** the fuel is never used up: any fuel from the length on gives the
    same sum *)
Lemma pairwise_sum_fuel (f : nat) :
  forall f' v, (length v <= f)%nat -> (length v <= f')%nat ->
    pairwise_sum f v = pairwise_sum f' v.
Proof.
  induction f as [| f IH]; intros f' v Hf Hf'.
  - destruct v; [| simpl in Hf; lia]. destruct f'; reflexivity.
  - destruct f' as [| f'].
    + destruct v; [| simpl in Hf'; lia]. reflexivity.
    + cbn [pairwise_sum].
      destruct (length v <? 8)%nat eqn:E8; [reflexivity |].
      destruct (length v <=? 128)%nat eqn:E128; [reflexivity |].
      apply Nat.ltb_ge in E8. apply Nat.leb_gt in E128.
      set (n2 := (length v / 2 - (length v / 2) mod 8)%nat).
      assert (Hn2 : (0 < n2 < length v)%nat).
      { subst n2.
        pose proof (Nat.mod_upper_bound (length v / 2) 8 ltac:(lia)).
        pose proof (Nat.div_mod_eq (length v) 2).
        pose proof (Nat.mod_upper_bound (length v) 2 ltac:(lia)).
        lia. }
      f_equal; apply IH; rewrite ?length_take, ?length_drop; lia.
Qed.

(** pandas' mean of fewer than 8 values produced by float64 operations
    is the plain mean of the values that are not NaN *)
Lemma nanmean_drop_nan (v : list t) :
  (length v < 8)%nat -> Forall above_emin v ->
  nanmean v = mean_or_nan (drop_nan v).
Proof.
  intros Hn Hv. unfold nanmean, mean_or_nan, arithmetic_mean.
  rewrite length_drop_nan.
  assert (Hd : (length (drop_nan v) <= length v)%nat)
    by (unfold drop_nan; apply length_filter).
  destruct (drop_nan v) as [| y w] eqn:Ed; [reflexivity |].
  simpl length. cbv iota. f_equal.
  rewrite <- Ed. simpl fsum. unfold sum.
  rewrite !pairwise_sum_short
    by (unfold fill_nan; rewrite ?length_fmap, ?Ed; simpl in *; lia).
  unfold sum_left. f_equal.
  apply foldl_add_drop_nan; [exact Hv |].
  split; [reflexivity | exact I].
Qed.

(** an infinite entry makes the sum an infinity or NaN *)
Lemma add_inf_or_nan_l (a x : t) :
  is_inf_or_nan a = true -> is_inf_or_nan (add a x) = true.
Proof.
  destruct a as [| sa | |]; try discriminate; intros _;
    destruct x as [| sx | |]; try reflexivity.
  destruct sa, sx; reflexivity.
Qed.

Lemma add_inf_or_nan_r (a x : t) :
  is_inf_or_nan x = true -> is_inf_or_nan (add a x) = true.
Proof.
  destruct x as [| sx | |]; try discriminate; intros _;
    destruct a as [| sa | |]; try reflexivity.
  destruct sa, sx; reflexivity.
Qed.

Lemma foldl_add_inf_or_nan (v : list t) :
  forall a, is_inf_or_nan a = true -> is_inf_or_nan (foldl add a v) = true.
Proof.
  induction v as [| x v IH]; intros a Ha; [exact Ha |].
  simpl. apply IH, add_inf_or_nan_l, Ha.
Qed.

Lemma foldl_add_with_inf (v : list t) (x : t) :
  x ∈ v -> is_inf_or_nan x = true ->
  forall a, is_inf_or_nan (foldl add a v) = true.
Proof.
  intros Hin Hx. induction Hin as [x v | x y v _ IH]; intros a; simpl.
  - apply foldl_add_inf_or_nan, add_inf_or_nan_r, Hx.
  - apply IH, Hx.
Qed.

Lemma div_inf_or_nan_l (x y : t) :
  is_inf_or_nan x = true -> is_inf_or_nan (div x y) = true.
Proof.
  destruct x; try discriminate; intros _; destruct y; reflexivity.
Qed.

(** a product with an ordinary nonzero first factor is NaN only if the
    second factor is *)
Lemma mul_not_nan_l (x y : t) :
  is_finite_nonzero x = true -> not_nan y -> not_nan (mul x y).
Proof.
  intros Hx Hy. destruct x as [| | | sx mx ex]; try discriminate.
  destruct y as [sy | sy | | sy my ey]; try discriminate; try reflexivity.
  unfold mul, SFmul. apply binary_round_aux_not_nan. lia.
Qed.

Definition poisoned (x : t) : Prop := is_inf_or_nan x = true.

Lemma zip_add_poisoned_l (l1 l2 : list t) :
  (length l1 <= length l2)%nat ->
  Exists poisoned l1 -> Exists poisoned (zip_with add l1 l2).
Proof.
  revert l2. induction l1 as [| x l1 IH]; intros l2 Hlen Hex.
  - inversion Hex.
  - destruct l2 as [| y l2]; [simpl in Hlen; lia |].
    simpl in *. apply Exists_cons in Hex as [Hx | Hex].
    + apply Exists_cons_hd. apply add_inf_or_nan_l, Hx.
    + apply Exists_cons_tl, IH; [lia | exact Hex].
Qed.

Lemma zip_add_poisoned_r (l1 l2 : list t) :
  (length l2 <= length l1)%nat ->
  Exists poisoned l2 -> Exists poisoned (zip_with add l1 l2).
Proof.
  revert l2. induction l1 as [| x l1 IH]; intros l2 Hlen Hex.
  - destruct l2; [inversion Hex | simpl in Hlen; lia].
  - destruct l2 as [| y l2]; [inversion Hex |].
    simpl in *. apply Exists_cons in Hex as [Hy | Hex].
    + apply Exists_cons_hd. apply add_inf_or_nan_r, Hy.
    + apply Exists_cons_tl, IH; [lia | exact Hex].
Qed.

Lemma sum_lanes_poisoned (k : nat) :
  forall r body,
    length r = 8%nat -> (8 * k <= length body)%nat ->
    Exists poisoned r \/ Exists poisoned (take (8 * k) body) ->
    length (sum_lanes k r body) = 8%nat /\
    Exists poisoned (sum_lanes k r body).
Proof.
  induction k as [| k IH]; intros r body Hr Hb Hex; simpl sum_lanes.
  - split; [exact Hr |]. destruct Hex as [Hex | Hex]; [exact Hex |].
    simpl in Hex. inversion Hex.
  - assert (Hz : length (zip_with add r (take 8 body)) = 8%nat)
      by (rewrite length_zip_with, length_take; lia).
    apply IH; [exact Hz | rewrite length_drop; lia |].
    destruct Hex as [Hex | Hex].
    + left. apply zip_add_poisoned_l; [rewrite length_take; lia | exact Hex].
    + replace (8 * S k)%nat with (8 + 8 * k)%nat in Hex by lia.
      rewrite <- (take_drop 8 body) in Hex at 1.
      rewrite take_app_add' in Hex by (rewrite length_take; lia).
      apply Exists_app in Hex as [Hex | Hex].
      * left. apply zip_add_poisoned_r; [rewrite length_take; lia | exact Hex].
      * right. exact Hex.
Qed.

Lemma combine_lanes_poisoned (r : list t) :
  length r = 8%nat -> Exists poisoned r -> poisoned (combine_lanes r).
Proof.
  intros Hr Hex.
  do 9 (destruct r as [| ? r]; try discriminate Hr).
  unfold combine_lanes, poisoned in *.
  repeat (apply Exists_cons in Hex as [Hx | Hex]);
    [ .. | inversion Hex ];
    eauto 6 using add_inf_or_nan_l, add_inf_or_nan_r.
Qed.

Lemma sum_left_poisoned (a : t) (v : list t) :
  poisoned a \/ Exists poisoned v -> poisoned (sum_left a v).
Proof.
  unfold sum_left, poisoned. intros [Ha | Hex].
  - apply foldl_add_inf_or_nan, Ha.
  - apply Exists_exists in Hex as (x & Hin & Hx).
    apply (foldl_add_with_inf v x); [exact Hin | exact Hx].
Qed.

Lemma sum_block_poisoned (v : list t) :
  (8 <= length v)%nat -> Exists poisoned v -> poisoned (sum_block v).
Proof.
  intros Hn Hex. unfold sum_block.
  set (n := length v) in *.
  pose proof (Nat.div_mod_eq n 8) as Hle.
  pose proof (Nat.mod_upper_bound n 8 ltac:(lia)) as Hmod.
  assert (Hq : (1 <= n / 8)%nat) by lia.
  rewrite <- (take_drop (8 * (n / 8)) v) in Hex.
  apply Exists_app in Hex as [Hex | Hex].
  - apply sum_left_poisoned. left.
    apply combine_lanes_poisoned;
      apply (sum_lanes_poisoned (n / 8 - 1) (take 8 v) (drop 8 v));
      try (rewrite length_take; lia); try (rewrite length_drop; lia).
    all: replace (8 * (n / 8))%nat with (8 + 8 * (n / 8 - 1))%nat in Hex by lia;
      rewrite <- (take_drop 8 v) in Hex at 1;
      rewrite take_app_add' in Hex by (rewrite length_take; lia);
      apply Exists_app in Hex as [Hex | Hex]; [left | right]; exact Hex.
  - apply sum_left_poisoned. right. exact Hex.
Qed.

Lemma pairwise_sum_poisoned (f : nat) :
  forall v, Exists poisoned v -> poisoned (pairwise_sum f v).
Proof.
  induction f as [| f IH]; intros v Hex; cbn [pairwise_sum].
  - destruct (length v <? 8)%nat eqn:E8.
    + apply sum_left_poisoned. right. exact Hex.
    + apply Nat.ltb_ge in E8.
      destruct (length v <=? 128)%nat; apply sum_block_poisoned; assumption.
  - destruct (length v <? 8)%nat eqn:E8.
    + apply sum_left_poisoned. right. exact Hex.
    + apply Nat.ltb_ge in E8.
      destruct (length v <=? 128)%nat; [apply sum_block_poisoned; assumption |].
      set (n2 := (length v / 2 - (length v / 2) mod 8)%nat).
      rewrite <- (take_drop n2 v) in Hex.
      apply Exists_app in Hex as [Hex | Hex].
      * apply add_inf_or_nan_l, IH, Hex.
      * apply add_inf_or_nan_r, IH, Hex.
Qed.

(** an infinite or NaN entry makes the sum an infinity or NaN, in
    whatever order the entries are added *)
Lemma sum_poisoned (v : list t) (x : t) :
  x ∈ v -> is_inf_or_nan x = true -> is_inf_or_nan (sum v) = true.
Proof.
  intros Hin Hx. unfold sum. apply add_inf_or_nan_r.
  apply pairwise_sum_poisoned. apply Exists_exists. exists x.
  split; [exact Hin | exact Hx].
Qed.

End F64Rounding.

(** ** More on the efficiency percentage *)

Section EfficiencyEdges.
Import F64 F64Facts F64Range F64Rounding Samples MoreSamples.
Implicit Types (rows : list (MeasurementRow F64.t)) (r : MeasurementRow F64.t).

Lemma efficiencyTerms_above_emin (df : gmap string (Series F64.t)) v :
  efficiencyTerms df = Ok v -> Forall above_emin v.
Proof.
  unfold efficiencyTerms, getitem, series_truediv, to_float, values_mul_int.
  destruct (df !! "ActualComparisons") as [ac |]; [| discriminate].
  destruct (df !! "TheoreticalComplexity") as [tc |]; [| discriminate].
  simpl. destruct (has_text ac); [discriminate |].
  destruct (has_text tc); [discriminate |].
  simpl. intros [= <-]. apply Forall_fmap, Forall_forall.
  intros x _. apply mul_above_emin.
Qed.

(** X1. Rows whose percentage is NaN are left out.  On a table of
    fewer than 8 rows (numpy then adds from the left) on which line 33
    computes the percentages [v], [computeEfficiency] returns the plain
    mean of the percentages that are not NaN, and NaN when there is none
    (the empty table included). *)
Theorem efficiency_skips_nan (df : gmap string (Series F64.t)) v :
  efficiencyTerms df = Ok v ->
  (length v < 8)%nat ->
  computeEfficiency df = Ok (mean_or_nan (drop_nan v)).
Proof.
  intros Hv Hn. unfold computeEfficiency. rewrite Hv. simpl. f_equal.
  apply nanmean_drop_nan; [exact Hn |].
  eapply efficiencyTerms_above_emin, Hv.
Qed.

Lemma efficiency_skips_nan_witness :
  computeEfficiency (frame_of_rows gappy_rows)
  = Ok (mean_or_nan (drop_nan (row_percent <$> gappy_rows))).
Proof.
  apply (efficiency_skips_nan (frame_of_rows gappy_rows)
           (row_percent <$> gappy_rows)).
  - reflexivity.
  - simpl. lia.
Defined.

Lemma row_percent_infinite r :
  is_zero (theoreticalComplexity r) = true ->
  actualComparisons r <> 0 ->
  is_inf (row_percent r) = true.
Proof.
  intros Hz Hac. unfold row_percent. simpl.
  destruct (of_Z_nonzero _ Hac) as [Hnz Hnn].
  destruct (theoreticalComplexity r); try discriminate.
  destruct (of_Z (actualComparisons r)); try discriminate; reflexivity.
Qed.

(** X2. A zero theoretical value never makes [computeEfficiency] fail:
    if some row has a nonzero count over a theoretical value of zero,
    the call returns, and what it returns is an infinity or NaN. *)
Theorem efficiency_zero_denominator rows r :
  r ∈ rows ->
  is_zero (theoreticalComplexity r) = true ->
  actualComparisons r <> 0 ->
  exists x,
    computeEfficiency (frame_of_rows rows) = Ok x /\ is_inf_or_nan x = true.
Proof.
  intros Hin Hz Hac. rewrite computeEfficiency_rows.
  eexists. split; [reflexivity |].
  pose proof (row_percent_infinite r Hz Hac) as Hinf.
  assert (Hnn : is_nan (row_percent r) = false)
    by (revert Hinf; destruct (row_percent r); done).
  assert (Hion : is_inf_or_nan (row_percent r) = true)
    by (revert Hinf; destruct (row_percent r); done).
  set (v := row_percent <$> rows).
  assert (Hv : row_percent r ∈ v) by (apply list_elem_of_fmap_2, Hin).
  unfold nanmean. rewrite length_drop_nan.
  assert (Hd : row_percent r ∈ drop_nan v).
  { apply list_elem_of_filter. split; [| exact Hv].
    change (isnan (row_percent r)) with (is_nan (row_percent r)).
    rewrite Hnn. simpl. tauto. }
  destruct (drop_nan v) as [| y w]; [by apply elem_of_nil in Hd |].
  simpl length. cbv iota. apply div_inf_or_nan_l.
  simpl fsum.
  apply (sum_poisoned _ (row_percent r)); [| exact Hion].
  unfold fill_nan. apply list_elem_of_fmap. exists (row_percent r).
  split; [| exact Hv].
  change (isnan (row_percent r)) with (is_nan (row_percent r)).
  rewrite Hnn. reflexivity.
Qed.

Lemma efficiency_zero_denominator_witness :
  exists x,
    computeEfficiency (frame_of_rows zero_anchor_rows) = Ok x /\
    is_inf_or_nan x = true.
Proof.
  apply (efficiency_zero_denominator zero_anchor_rows
           (row 8 (decimal 100 1) (decimal 5 1) 100 (of_Z 0))).
  - apply list_elem_of_here.
  - reflexivity.
  - discriminate.
Defined.

End EfficiencyEdges.

(** ** More on the normalised curve *)

Section FrameEdges.
Context {T : Type} `{Arith T}.
Implicit Types (df : gmap string (Series T)) (s : Series T).

Lemma iloc_nonempty s :
  nonempty s = true -> exists x, iloc s 0 = Ok x.
Proof.
  destruct s as [[| z zs] | [| x xs] | [| c cs]]; try discriminate;
    try destruct c; simpl; eauto.
Qed.

Lemma iloc_empty s :
  nonempty s = false -> iloc s 0 = Raise IndexError.
Proof.
  destruct s as [[| z zs] | [| x xs] | [| c cs]]; try discriminate; reflexivity.
Qed.

Lemma length_float_values s : length (float_values s) = series_length s.
Proof. destruct s; simpl; rewrite ?length_fmap; reflexivity. Qed.

Lemma head_number_nonempty s : head_number s = true -> nonempty s = true.
Proof.
  destruct s as [[| z zs] | [| x xs] | [| c cs]]; try discriminate; reflexivity.
Qed.

(** a column without text that has an entry starts with a number *)
Lemma numeric_head_number s :
  numeric s = true -> nonempty s = true -> head_number s = true.
Proof.
  destruct s as [[| z zs] | [| x xs] | [| c cs]]; try discriminate;
    try reflexivity.
  destruct c; [discriminate | reflexivity].
Qed.

Lemma head_number_scalar s :
  head_number s = true ->
  exists x y, iloc s 0 = Ok x /\ scalar_float x = Ok y.
Proof.
  unfold head_number.
  destruct (iloc s 0) as [[z | x | str] | e]; try discriminate; simpl; eauto.
Qed.

Lemma scalar_head_number s x y :
  iloc s 0 = Ok x -> scalar_float x = Ok y -> head_number s = true.
Proof.
  unfold head_number. intros ->. destruct x; try discriminate; reflexivity.
Qed.

Lemma normalizeTheoretical_found df tc at_ :
  df !! "TheoreticalComplexity" = Some tc -> df !! "ActualTime" = Some at_ ->
  normalizeTheoretical df
  = (a0 <- iloc at_ 0;; t0 <- iloc tc 0;;
     k <- scalar_truediv a0 t0;; series_mul_scalar tc k)%result.
Proof.
  intros Etc Eat. unfold normalizeTheoretical, getitem. rewrite Etc, Eat.
  simpl. destruct (iloc at_ 0); reflexivity.
Qed.

(** X3. [normalizeTheoretical] returns normally exactly when the
    columns [TheoreticalComplexity] and [ActualTime] both exist, the
    theoretical column has an entry and holds no text, and the time
    column starts with a number; the curve it returns has as many points
    as the theoretical column has entries. *)
Theorem normalizeTheoretical_succeeds_iff df :
  ((exists out, normalizeTheoretical df = Ok out) <->
   (exists tc at_,
      df !! "TheoreticalComplexity" = Some tc /\ df !! "ActualTime" = Some at_ /\
      nonempty tc = true /\ numeric tc = true /\ head_number at_ = true)) /\
  (forall out tc,
     normalizeTheoretical df = Ok out ->
     df !! "TheoreticalComplexity" = Some tc ->
     length out = series_length tc).
Proof.
  destruct (df !! "TheoreticalComplexity") as [tc |] eqn:Etc;
    [| unfold normalizeTheoretical, getitem; rewrite Etc; simpl;
       split; [split; [intros [? [=]] | intros (? & ? & [=] & _)] | intros ? ? [=]]].
  destruct (df !! "ActualTime") as [at_ |] eqn:Eat;
    [| unfold normalizeTheoretical, getitem; rewrite Etc, Eat; simpl;
       split; [split; [intros [? [=]] | intros (? & ? & _ & [=] & _)] | intros ? ? [=]]].
  rewrite (normalizeTheoretical_found df tc at_ Etc Eat).
  unfold series_mul_scalar, scalar_truediv, to_float, numeric.
  split; [split |].
  - intros [out Hout].
    destruct (iloc at_ 0) as [a0 |] eqn:Ea; [| discriminate].
    destruct (iloc tc 0) as [t0 |] eqn:Et; [| discriminate].
    simpl in Hout.
    destruct (scalar_float a0) as [x |] eqn:Ex; [| discriminate].
    destruct (scalar_float t0) as [y |] eqn:Ey; [| discriminate].
    simpl in Hout.
    destruct (has_text tc) eqn:Ht; [discriminate |].
    exists tc, at_. split; [reflexivity |]. split; [reflexivity |].
    split; [| split].
    + destruct (nonempty tc) eqn:Nt; [reflexivity |].
      rewrite (iloc_empty _ Nt) in Et. discriminate.
    + rewrite Ht. reflexivity.
    + eapply scalar_head_number; eassumption.
  - intros (tc' & at' & [= <-] & [= <-] & Nt & Ht & Ha).
    apply negb_true_iff in Ht.
    destruct (head_number_scalar _ Ha) as (a0 & x & -> & Hx).
    destruct (head_number_scalar tc) as (t0 & y & -> & Hy).
    { apply numeric_head_number; [unfold numeric; rewrite Ht; reflexivity | exact Nt]. }
    simpl. rewrite Hx, Hy. simpl. rewrite Ht. simpl. eauto.
  - intros out tc' Hout [= <-].
    destruct (iloc at_ 0) as [a0 |]; [| discriminate].
    destruct (iloc tc 0) as [t0 |]; [| discriminate].
    simpl in Hout.
    destruct (scalar_float a0) as [x |]; [| discriminate].
    destruct (scalar_float t0) as [y |]; [| discriminate].
    simpl in Hout.
    destruct (has_text tc); [discriminate |].
    simpl in Hout. injection Hout as <-.
    rewrite length_fmap. apply length_float_values.
Qed.

(** X4. The errors of [normalizeTheoretical], in the order the
    expression is evaluated: a missing [TheoreticalComplexity] is
    reported first, then a missing [ActualTime], and with both columns
    there an empty one of them raises [IndexError]. *)
Theorem normalizeTheoretical_errors df :
  (df !! "TheoreticalComplexity" = None ->
   normalizeTheoretical df = Raise (KeyError "TheoreticalComplexity")) /\
  (is_Some (df !! "TheoreticalComplexity") -> df !! "ActualTime" = None ->
   normalizeTheoretical df = Raise (KeyError "ActualTime")) /\
  (forall tc at_,
     df !! "TheoreticalComplexity" = Some tc -> df !! "ActualTime" = Some at_ ->
     nonempty at_ && nonempty tc = false ->
     normalizeTheoretical df = Raise IndexError).
Proof.
  unfold normalizeTheoretical, getitem. repeat split.
  - intros ->. reflexivity.
  - intros [tc ->] ->. reflexivity.
  - intros tc at_ -> -> Hn. simpl.
    destruct (nonempty at_) eqn:Na.
    + destruct (iloc_nonempty _ Na) as [a0 ->]. simpl.
      simpl in Hn. rewrite (iloc_empty _ Hn). reflexivity.
    + rewrite (iloc_empty _ Na). reflexivity.
Qed.

(** X21. A text where line 12 needs a number raises [TypeError]:
    with both columns there and an entry at position 0 of each, a text
    in [TheoreticalComplexity] or at position 0 of [ActualTime] makes
    [normalizeTheoretical] raise [TypeError]. *)
Theorem normalizeTheoretical_type_error df tc at_ :
  df !! "TheoreticalComplexity" = Some tc ->
  df !! "ActualTime" = Some at_ ->
  nonempty tc = true ->
  nonempty at_ = true ->
  numeric tc && head_number at_ = false ->
  normalizeTheoretical df = Raise TypeError.
Proof.
  intros Etc Eat Nt Na Hn.
  rewrite (normalizeTheoretical_found df tc at_ Etc Eat).
  revert Hn. unfold head_number, numeric, scalar_truediv, series_mul_scalar, to_float.
  destruct (iloc_nonempty _ Na) as [a0 ->].
  destruct (iloc_nonempty _ Nt) as [t0 ->].
  destruct a0, t0; simpl; try reflexivity;
    destruct (has_text tc); simpl; try reflexivity; discriminate.
Qed.

(** X5. The curve depends on the theoretical column and on the first
    entry of [ActualTime] only: two frames that agree on these give the
    same result, whatever their other columns and their later times. *)
Theorem normalizeTheoretical_reads_only df1 df2 at1 at2 :
  df1 !! "TheoreticalComplexity" = df2 !! "TheoreticalComplexity" ->
  df1 !! "ActualTime" = Some at1 ->
  df2 !! "ActualTime" = Some at2 ->
  iloc at1 0 = iloc at2 0 ->
  normalizeTheoretical df1 = normalizeTheoretical df2.
Proof.
  intros Htc H1 H2 Ha. unfold normalizeTheoretical, getitem.
  rewrite Htc, H1, H2.
  destruct (df2 !! "TheoreticalComplexity"); simpl; [| reflexivity].
  rewrite Ha. reflexivity.
Qed.

Lemma to_float_as_float s : to_float (as_float s) = to_float s.
Proof.
  unfold as_float, to_float. destruct (has_text s) eqn:E; [by rewrite E |].
  reflexivity.
Qed.

Lemma no_text_lookup (cs : list Cell) i str :
  existsb is_text cs = false -> cs !! i <> Some (Text str).
Proof.
  intros Hn Hi.
  assert (Hex : existsb is_text cs = true); [| congruence].
  apply existsb_exists. exists (Text str). split; [| reflexivity].
  apply list_elem_of_In, list_elem_of_lookup. eauto.
Qed.

(** the entry of a converted column, as an operand, is the entry of the
    column as an operand *)
Lemma iloc_as_float s i :
  rbind (iloc (as_float s) i) scalar_float = rbind (iloc s i) scalar_float.
Proof.
  unfold as_float. destruct (has_text s) eqn:E; [reflexivity |].
  destruct s as [zs | xs | cs]; simpl.
  - rewrite list_lookup_fmap. destruct (zs !! i); reflexivity.
  - reflexivity.
  - rewrite list_lookup_fmap.
    destruct (cs !! i) as [[str |] |] eqn:Ei; try reflexivity.
    exfalso. exact (no_text_lookup cs i str E Ei).
Qed.

Lemma iloc_as_float_raise s i e :
  iloc (as_float s) i = Raise e <-> iloc s i = Raise e.
Proof.
  unfold as_float. destruct (has_text s) eqn:E; [reflexivity |].
  destruct s as [zs | xs | cs]; simpl; rewrite ?list_lookup_fmap.
  - destruct (zs !! i); simpl; split; congruence.
  - reflexivity.
  - destruct (cs !! i) as [[str |] |]; simpl; split; congruence.
Qed.

(** line 12 with the scalars taken as operands right after the lookup *)
Lemma normalizeTheoretical_operands df tc at_ :
  df !! "TheoreticalComplexity" = Some tc -> df !! "ActualTime" = Some at_ ->
  normalizeTheoretical df
  = match iloc at_ 0, iloc tc 0 with
    | Raise e, _ => Raise e
    | Ok _, Raise e => Raise e
    | Ok _, Ok _ =>
        (x <- rbind (iloc at_ 0) scalar_float;;
         y <- rbind (iloc tc 0) scalar_float;;
         v <- to_float tc;;
         Ok ((fun z => fmul z (fdiv x y)) <$> v))%result
    end.
Proof.
  intros Etc Eat. rewrite (normalizeTheoretical_found df tc at_ Etc Eat).
  unfold scalar_truediv, series_mul_scalar.
  destruct (iloc at_ 0) as [a0 |]; [| reflexivity].
  destruct (iloc tc 0) as [t0 |]; [| reflexivity].
  simpl. destruct (scalar_float a0); [| reflexivity].
  simpl. destruct (scalar_float t0); reflexivity.
Qed.

Lemma iloc_as_float_cases s i :
  match iloc (as_float s) i, iloc s i with
  | Ok _, Ok _ => True
  | Raise e, Raise e' => e = e'
  | _, _ => False
  end.
Proof.
  destruct (iloc (as_float s) i) as [x |] eqn:E1.
  - destruct (iloc s i) as [y | e] eqn:E2; [exact I |].
    apply (proj2 (iloc_as_float_raise s i e)) in E2. congruence.
  - apply (proj1 (iloc_as_float_raise s i e)) in E1. rewrite E1. reflexivity.
Qed.

Lemma getitem_astype_float c df k :
  getitem (astype_float c df) k
  = rbind (getitem df k)
      (fun s => Ok (if decide (c = k) then as_float s else s)).
Proof.
  unfold astype_float, getitem.
  destruct (decide (c = k)) as [-> | Hne].
  - destruct (df !! k) as [s |] eqn:E.
    + rewrite lookup_insert_eq. reflexivity.
    + rewrite E. reflexivity.
  - destruct (df !! c) as [s |] eqn:E.
    + rewrite lookup_insert_ne by exact Hne. destruct (df !! k); reflexivity.
    + destruct (df !! k); reflexivity.
Qed.

Lemma lookup_astype_float c df k :
  astype_float c df !! k
  = (fun s => if decide (c = k) then as_float s else s) <$> df !! k.
Proof.
  pose proof (getitem_astype_float c df k) as Hg. unfold getitem in Hg.
  destruct (astype_float c df !! k), (df !! k); simpl in *; congruence.
Qed.

(** X6. The dtype of a column does not matter: converting any column
    of a frame to float ([astype(float64)]) changes neither the
    normalised curve nor the efficiency, since every operator of the
    script converts an integer operand in the same way before it
    computes. *)
Theorem astype_float_same_results c df :
  normalizeTheoretical (astype_float c df) = normalizeTheoretical df /\
  computeEfficiency (astype_float c df) = computeEfficiency df.
Proof.
  split.
  - destruct (df !! "TheoreticalComplexity") as [tc |] eqn:Etc;
      [| unfold normalizeTheoretical, getitem;
         rewrite lookup_astype_float, Etc; reflexivity].
    destruct (df !! "ActualTime") as [at_ |] eqn:Eat;
      [| unfold normalizeTheoretical, getitem;
         rewrite !lookup_astype_float, Etc, Eat; reflexivity].
    rewrite (normalizeTheoretical_operands df tc at_ Etc Eat).
    rewrite (normalizeTheoretical_operands (astype_float c df)
               (if decide (c = "TheoreticalComplexity") then as_float tc else tc)
               (if decide (c = "ActualTime") then as_float at_ else at_))
      by (rewrite lookup_astype_float, ?Etc, ?Eat; reflexivity).
    pose proof (iloc_as_float_cases at_ 0) as Ha.
    pose proof (iloc_as_float_cases tc 0) as Ht.
    destruct (decide (c = "TheoreticalComplexity")), (decide (c = "ActualTime"));
      rewrite ?(iloc_as_float at_ 0), ?(iloc_as_float tc 0),
        ?(to_float_as_float tc);
      destruct (iloc at_ 0), (iloc tc 0);
      repeat match goal with
             | |- context [iloc (as_float ?s) ?i] => destruct (iloc (as_float s) i)
             end;
      simpl in *; try contradiction; congruence.
  - unfold computeEfficiency, efficiencyTerms, series_truediv.
    rewrite !getitem_astype_float.
    destruct (getitem df "ActualComparisons") as [ac |]; simpl; [| reflexivity].
    destruct (getitem df "TheoreticalComplexity") as [tc |]; simpl; [| reflexivity].
    destruct (decide (c = "ActualComparisons")), (decide (c = "TheoreticalComplexity"));
      rewrite ?to_float_as_float; reflexivity.
Qed.

End FrameEdges.

Section FrameEdgesWitnesses.
Import F64 Samples MoreSamples.

Lemma normalizeTheoretical_succeeds_iff_witness :
  (exists out, normalizeTheoretical sample_frame = Ok out) /\
  (forall out,
     normalizeTheoretical sample_frame = Ok out ->
     length out = series_length (Int64Series (T:=F64.t) [96; 512; 2560])).
Proof.
  split.
  - apply (proj2 (proj1 (normalizeTheoretical_succeeds_iff sample_frame))).
    do 2 eexists. repeat split; reflexivity.
  - intros out Hout.
    apply (proj2 (normalizeTheoretical_succeeds_iff sample_frame) out _ Hout).
    reflexivity.
Defined.

Lemma normalizeTheoretical_errors_witness :
  normalizeTheoretical (delete "TheoreticalComplexity" sample_frame)
  = Raise (KeyError "TheoreticalComplexity") /\
  normalizeTheoretical (delete "ActualTime" sample_frame)
  = Raise (KeyError "ActualTime") /\
  normalizeTheoretical (frame_of_rows ([] : list (MeasurementRow F64.t)))
  = Raise IndexError.
Proof.
  split; [| split].
  - apply (proj1 (normalizeTheoretical_errors _)). reflexivity.
  - apply (proj1 (proj2 (normalizeTheoretical_errors _))); [eexists |]; reflexivity.
  - apply (proj2 (proj2 (normalizeTheoretical_errors _))
             (Float64Series []) (Float64Series [])); reflexivity.
Defined.

Lemma normalizeTheoretical_type_error_witness :
  normalizeTheoretical text_frame = Raise TypeError.
Proof.
  apply (normalizeTheoretical_type_error text_frame
           (ObjectSeries [Text "96"; Text "n/a"; Text "2560"])
           (Float64Series [decimal 100 1; decimal 450 1; decimal 2000 1]));
    reflexivity.
Defined.

Lemma normalizeTheoretical_reads_only_witness :
  normalizeTheoretical (frame_of_rows sample_rows)
  = normalizeTheoretical (frame_of_rows sample_rows_varied).
Proof.
  apply (normalizeTheoretical_reads_only
           (frame_of_rows sample_rows) (frame_of_rows sample_rows_varied)
           (Float64Series (actualTime <$> sample_rows))
           (Float64Series (actualTime <$> sample_rows_varied)));
    reflexivity.
Defined.

End FrameEdgesWitnesses.

Section CurveEdges.
Import F64 F64Facts F64Rounding Samples MoreSamples.
Implicit Types (rows : list (MeasurementRow F64.t)) (r : MeasurementRow F64.t).

(** X7. With a first time that is not NaN and theoretical values that
    are all ordinary nonzero numbers, no point of the normalised curve
    is NaN. *)
Theorem normalized_curve_no_nan rows r0 :
  rows !! 0%nat = Some r0 ->
  is_nan (actualTime r0) = false ->
  Forall (fun r => is_finite_nonzero (theoreticalComplexity r) = true) rows ->
  exists out,
    normalizeTheoretical (frame_of_rows rows) = Ok out /\
    Forall (fun x => is_nan x = false) out.
Proof.
  intros H0 Ha Hall. rewrite normalizeTheoretical_rows.
  destruct rows as [| r' rest]; [discriminate |].
  injection H0 as ->.
  eexists. split; [reflexivity |].
  apply Forall_fmap. eapply Forall_impl; [exact Hall |].
  intros r Hr. simpl. apply mul_not_nan_l; [exact Hr |].
  apply div_not_nan; [exact Ha |].
  apply (Forall_inv Hall).
Qed.

Lemma normalized_curve_no_nan_witness :
  exists out,
    normalizeTheoretical (frame_of_rows sample_rows) = Ok out /\
    Forall (fun x => is_nan x = false) out.
Proof.
  apply (normalized_curve_no_nan sample_rows
           (row 8 (decimal 100 1) (decimal 5 1) 100 (of_Z 96))).
  - reflexivity.
  - reflexivity.
  - repeat constructor.
Defined.

(** X8. A first time of zero flattens the curve: with theoretical
    values that are all ordinary nonzero numbers, every point of the
    normalised curve is then a zero. *)
Theorem zero_time_flattens_curve rows r0 :
  rows !! 0%nat = Some r0 ->
  is_zero (actualTime r0) = true ->
  Forall (fun r => is_finite_nonzero (theoreticalComplexity r) = true) rows ->
  exists out,
    normalizeTheoretical (frame_of_rows rows) = Ok out /\
    length out = length rows /\
    Forall (fun x => is_zero x = true) out.
Proof.
  intros H0 Ha Hall. rewrite normalizeTheoretical_rows.
  destruct rows as [| r' rest]; [discriminate |].
  injection H0 as ->.
  eexists. split; [reflexivity |]. split; [apply length_fmap |].
  apply Forall_fmap. eapply Forall_impl; [exact Hall |].
  intros r Hr. simpl. unfold anchor_scale. simpl.
  pose proof (Forall_inv Hall) as H0. simpl in H0.
  revert Ha H0 Hr.
  destruct (actualTime r0); try discriminate.
  destruct (theoreticalComplexity r0); try discriminate.
  destruct (theoreticalComplexity r); try discriminate.
  reflexivity.
Qed.

Lemma zero_time_flattens_curve_witness :
  exists out,
    normalizeTheoretical (frame_of_rows zero_time_rows) = Ok out /\
    length out = length zero_time_rows /\
    Forall (fun x => is_zero x = true) out.
Proof.
  apply (zero_time_flattens_curve zero_time_rows
           (row 8 (of_Z 0) (decimal 5 1) 100 (of_Z 96))).
  - reflexivity.
  - reflexivity.
  - repeat constructor.
Defined.

End CurveEdges.

Section EfficiencyErrors.
Context {T : Type} `{Arith T}.


End EfficiencyErrors.


(** ** More on the run as a whole *)

Section RunEdges.
Context {T : Type} `{Arith T}.
Implicit Types (w : World T) (t : gmap string (Series T)).

Lemma main_not_found w :
  files w !! csv_path = None -> main w = (Raise (FileNotFoundError csv_path), w).
Proof. intros Hf. unfold main, load, bind, read_csv. rewrite Hf. reflexivity. Qed.

Lemma main_unreadable w e :
  files w !! csv_path = Some (Unreadable e) -> main w = (Raise e, w).
Proof. intros Hf. unfold main, load, bind, read_csv. rewrite Hf. reflexivity. Qed.

Lemma pyplot_error_accepted w c :
  pyplot_error w c = None -> plot_error w c = None.
Proof. unfold pyplot_error. destruct (plot_error w c); congruence. Qed.

Lemma pyplot_error_yerr w x y yerr :
  pyplot_error w (Errorbar x y yerr) = None -> yerr_negative yerr = false.
Proof.
  unfold pyplot_error. destruct (plot_error w _); [congruence |].
  destruct (yerr_negative yerr); congruence.
Qed.

(** X9. Without the CSV file the run raises [FileNotFoundError] for
    its path and leaves everything as it was: nothing is bound, drawn,
    saved or printed. *)
Theorem main_missing_file w :
  files w !! csv_path = None ->
  main w = (Raise (FileNotFoundError csv_path), w).
Proof. exact (main_not_found w). Qed.

(** drawing touches nothing but the figure *)
Lemma render_frame w t :
  let w1 := snd (render (loaded w t)) in
  can_write w1 = can_write w /\ render_error w1 = render_error w /\
  saved w1 = saved w /\ stdout w1 = stdout w.
Proof. open_script. repeat script_case; repeat split; reflexivity. Qed.

Lemma render_figure w t :
  fst (render (loaded w t)) = Ok tt ->
  length (figure (snd (render (loaded w t)))) = (length (figure w) + 5)%nat.
Proof.
  open_script.
  repeat script_case; intros E; try discriminate E;
    rewrite !length_app; simpl; lia.
Qed.




Lemma after_load_success_state w t :
  fst (after_load (loaded w t)) = Ok tt ->
  let w' := snd (after_load (loaded w t)) in
  saved w' = Some (figure w') /\
  length (figure w') = (length (figure w) + 5)%nat /\
  stdout w' = (stdout w ++ [confirmation])%list.
Proof.
  open_script.
  repeat script_case; intros E; try discriminate E;
    (split; [reflexivity |]; split; [| reflexivity]);
    rewrite !length_app; simpl; lia.
Qed.

(** X11. When the run succeeds, the image written is the whole figure:
    it holds every call drawn, five more than before the run (the error
    bars, the normalised curve, the two log-log series and the caption),
    and the confirmation line is the last line printed. *)
Theorem main_success_state w :
  fst (main w) = Ok tt ->
  saved (snd (main w)) = Some (figure (snd (main w))) /\
  length (figure (snd (main w))) = (length (figure w) + 5)%nat /\
  stdout (snd (main w)) = (stdout w ++ [confirmation])%list.
Proof.
  destruct (files w !! csv_path) as [[t | e0] |] eqn:Hf.
  - rewrite (main_found w t Hf). apply after_load_success_state.
  - rewrite (main_unreadable w e0 Hf). discriminate.
  - rewrite (main_not_found w Hf). discriminate.
Qed.

Lemma after_load_failure_state w t e :
  fst (after_load (loaded w t)) = Raise e ->
  let w' := snd (after_load (loaded w t)) in
  saved w' = saved w /\ stdout w' = stdout w.
Proof.
  open_script.
  repeat script_case; intros E; try discriminate E; split; reflexivity.
Qed.

(** X12. A run that fails is without effect outside the process: no
    image is written and nothing is printed, whatever the failure. *)
Theorem main_failure_atomic w e :
  fst (main w) = Raise e ->
  saved (snd (main w)) = saved w /\
  stdout (snd (main w)) = stdout w /\
  files (snd (main w)) = files w.
Proof.
  intros He.
  assert (Hs : saved (snd (main w)) = saved w /\ stdout (snd (main w)) = stdout w).
  { destruct (files w !! csv_path) as [[t | e0] |] eqn:Hf.
    - rewrite (main_found w t Hf) in *.
      apply (after_load_failure_state w t e He).
    - rewrite (main_unreadable w e0 Hf). split; reflexivity.
    - rewrite (main_not_found w Hf). split; reflexivity. }
  destruct Hs as [Hs1 Hs2].
  split; [exact Hs1 |]. split; [exact Hs2 | apply main_preserves_files].
Qed.



(** X14. A column missing on line 9 is reported before anything is
    drawn: the run raises [KeyError] for the first column that the
    table lacks in the order of the lookups of that line, [GridSize],
    [ActualTime], [StdDev]. *)
Theorem main_first_missing_column w t pre c post :
  files w !! csv_path = Some (Table t) ->
  lookup_order = (pre ++ c :: post)%list ->
  Forall (fun k => is_Some (t !! k)) pre ->
  t !! c = None ->
  main w = (Raise (KeyError c), loaded w t).
Proof.
  intros Hf Ho Hpre Hc. rewrite (main_found w t Hf).
  unfold lookup_order in Ho.
  destruct pre as [| p1 [| p2 [| p3 pre]]]; simpl in Ho;
    injection Ho as ?; subst;
    try (exfalso; eapply app_cons_not_nil; eassumption);
    repeat match goal with
           | F : Forall _ (_ :: _) |- _ => apply Forall_cons in F as [[? ?] F]
           end;
    fold (after_load (T:=T)); open_script; repeat script_case; reflexivity.
Qed.

(** the steps of the script, leaving lines 12 and 33 folded *)
Ltac open_steps :=
  unfold after_load, render, render_panel_a, render_panel_b, annotate, save,
    report, column, normalize_step, efficiency_step, with_df, bind, draw,
    savefig, print, loaded, pyplot_error, getitem, confirmation;
  cbn [df files can_write plot_error render_error figure saved stdout fst snd].

Ltac run_steps :=
  repeat (match goal with
          | E : ?x = _ |- context [?x] => rewrite E
          end;
          cbn [df files can_write plot_error render_error figure saved stdout
               fst snd]).

(** X15. [ActualComparisons] is looked up last: when only this column
    is missing, line 12 returns the curve [tn] and matplotlib accepts the
    two calls of the first panel, the run raises [KeyError] for the
    column after the error bars and the normalised curve have been
    drawn, and writes no image. *)
Theorem main_missing_comparisons w t gs at_ sd tn :
  files w !! csv_path = Some (Table t) ->
  t !! "GridSize" = Some gs ->
  t !! "ActualTime" = Some at_ ->
  t !! "StdDev" = Some sd ->
  normalizeTheoretical t = Ok tn ->
  pyplot_error w (Errorbar gs at_ sd) = None ->
  pyplot_error w (Plot gs tn) = None ->
  t !! "ActualComparisons" = None ->
  fst (main w) = Raise (KeyError "ActualComparisons") /\
  figure (snd (main w)) = (figure w ++ [Errorbar gs at_ sd; Plot gs tn])%list /\
  saved (snd (main w)) = saved w.
Proof.
  intros Hf Hgs Hat Hsd Htn He Hp Hc. rewrite (main_found w t Hf).
  pose proof (pyplot_error_yerr _ _ _ _ He) as Hy.
  apply pyplot_error_accepted in He, Hp.
  open_steps. run_steps.
  rewrite <- app_assoc. repeat split.
Qed.

(** X16. When the figure is drawn and can be rendered but the image
    cannot be written, the run raises [OSError] for the image path after
    the whole figure has been drawn; no image is written and the
    confirmation line is not printed. *)
Theorem main_unwritable w t :
  files w !! csv_path = Some (Table t) ->
  fst (render (loaded w t)) = Ok tt ->
  render_error w (figure (snd (render (loaded w t)))) = None ->
  can_write w = false ->
  fst (main w) = Raise (OSError png_path) /\
  length (figure (snd (main w))) = (length (figure w) + 5)%nat /\
  saved (snd (main w)) = saved w /\
  stdout (snd (main w)) = stdout w.
Proof.
  intros Hf Hr He Hc. rewrite (main_found w t Hf).
  pose proof (render_figure w t Hr) as Hfig.
  destruct (render_frame w t) as (Hcw & Hre & Hsv & Hso).
  assert (Hm : bind render (fun _ => bind save (fun _ => report)) (loaded w t)
               = (Raise (OSError png_path), snd (render (loaded w t)))).
  { unfold bind at 1.
    destruct (render (loaded w t)) as [[[] | e] w1]; [| discriminate Hr].
    cbn [fst snd] in *. unfold bind, save, savefig.
    rewrite Hre, He, Hcw, Hc. reflexivity. }
  rewrite Hm. cbn [fst snd].
  split; [reflexivity |]. split; [exact Hfig |]. split; assumption.
Qed.

(** X17. The complete run on a table given by its rows: with at least
    one row, five calls that matplotlib accepts (so no negative
    [StdDev]), a figure it can render and a writable directory, the run
    succeeds; the figure gains the error bars of [ActualTime] with
    [StdDev], the normalised curve, the two log-log series and the
    caption with the efficiency, in this order; the image written is
    that figure, and the confirmation line is printed. *)
Theorem main_on_rows w (rows : list (MeasurementRow T)) :
  files w !! csv_path = Some (Table (frame_of_rows rows)) ->
  rows <> [] ->
  Forall (fun c => pyplot_error w c = None) (complete_figure rows) ->
  render_error w (figure w ++ complete_figure rows)%list = None ->
  can_write w = true ->
  main w =
  (Ok tt,
   {| files := files w; can_write := true;
      plot_error := plot_error w; render_error := render_error w;
      df := Some (frame_of_rows rows);
      figure := (figure w ++ complete_figure rows)%list;
      saved := Some (figure w ++ complete_figure rows)%list;
      stdout := (stdout w ++ [confirmation])%list |}).
Proof.
  intros Hf Hne Hp Hr Hc. rewrite (main_found w _ Hf).
  destruct rows as [| r0 rest]; [done |].
  cbn [complete_figure] in Hp, Hr.
  repeat match goal with
         | F : Forall _ (_ :: _) |- _ => apply Forall_cons in F as [? F]
         end.
  repeat match goal with
         | E : pyplot_error _ (Errorbar _ _ _) = None |- _ =>
             pose proof (pyplot_error_yerr _ _ _ _ E); apply pyplot_error_accepted in E
         | E : pyplot_error _ _ = None |- _ => apply pyplot_error_accepted in E
         end.
  open_steps.
  repeat (first [ rewrite frame_GridSize | rewrite frame_ActualTime
                | rewrite frame_StdDev | rewrite frame_ActualComparisons
                | rewrite frame_TheoreticalComplexity
                | rewrite normalizeTheoretical_rows
                | rewrite computeEfficiency_rows
                | match goal with
                  | E : ?x = _ |- context [?x] => rewrite E
                  end ];
          cbn [df files can_write plot_error render_error figure saved stdout
               fst snd]).
  cbn [complete_figure]. rewrite <- !app_assoc in *. cbn [app] in *.
  rewrite Hr. reflexivity.
Qed.

(** X19. A negative [StdDev] stops the run at line 9: unless
    matplotlib refuses the call for another reason, [errorbar] raises
    [ValueError]; nothing is drawn, saved or printed. *)
Theorem main_negative_stddev w t gs at_ sd :
  files w !! csv_path = Some (Table t) ->
  t !! "GridSize" = Some gs ->
  t !! "ActualTime" = Some at_ ->
  t !! "StdDev" = Some sd ->
  yerr_negative sd = true ->
  plot_error w (Errorbar gs at_ sd) = None ->
  main w = (Raise ValueError, loaded w t).
Proof.
  intros Hf Hgs Hat Hsd Hy Hp. rewrite (main_found w t Hf).
  open_steps. run_steps. reflexivity.
Qed.

(** X20. A CSV file that [pd.read_csv] cannot read (an empty file, a
    malformed line) ends the run with the exception of the parser and
    leaves everything as it was: nothing is bound, drawn, saved or
    printed. *)
Theorem main_unreadable_file w e :
  files w !! csv_path = Some (Unreadable e) ->
  main w = (Raise e, w).
Proof. exact (main_unreadable w e). Qed.

End RunEdges.

Section RunEdgesWitnesses.
Import F64 Samples MoreSamples.

Lemma main_missing_file_witness :
  main empty_world = (Raise (FileNotFoundError csv_path), empty_world).
Proof. apply (main_missing_file empty_world). reflexivity. Defined.


Lemma main_success_state_witness :
  saved (snd (main sample_world)) = Some (figure (snd (main sample_world))) /\
  length (figure (snd (main sample_world))) = (length (figure sample_world) + 5)%nat /\
  stdout (snd (main sample_world)) = (stdout sample_world ++ [confirmation])%list.
Proof. apply (main_success_state sample_world). reflexivity. Defined.

Lemma main_failure_atomic_witness :
  saved (snd (main no_stddev_world)) = saved no_stddev_world /\
  stdout (snd (main no_stddev_world)) = stdout no_stddev_world /\
  files (snd (main no_stddev_world)) = files no_stddev_world.
Proof.
  apply (main_failure_atomic no_stddev_world (KeyError "StdDev")). reflexivity.
Defined.


Lemma main_first_missing_column_witness :
  main no_stddev_world
  = (Raise (KeyError "StdDev"), loaded no_stddev_world no_stddev_frame).
Proof.
  apply (main_first_missing_column no_stddev_world no_stddev_frame
           ["GridSize"; "ActualTime"] "StdDev" []).
  - reflexivity.
  - reflexivity.
  - repeat constructor; eexists; reflexivity.
  - reflexivity.
Defined.

Lemma main_missing_comparisons_witness :
  exists gs at_ sd tn,
    fst (main no_comparisons_world) = Raise (KeyError "ActualComparisons") /\
    figure (snd (main no_comparisons_world))
    = (figure no_comparisons_world ++ [Errorbar gs at_ sd; Plot gs tn])%list /\
    saved (snd (main no_comparisons_world)) = saved no_comparisons_world.
Proof.
  do 4 eexists.
  apply (main_missing_comparisons no_comparisons_world
           (delete "ActualComparisons" sample_frame));
    reflexivity.
Defined.

Lemma main_unwritable_witness :
  fst (main (rows_world false)) = Raise (OSError png_path) /\
  length (figure (snd (main (rows_world false))))
  = (length (figure (rows_world false)) + 5)%nat /\
  saved (snd (main (rows_world false))) = saved (rows_world false) /\
  stdout (snd (main (rows_world false))) = stdout (rows_world false).
Proof.
  apply (main_unwritable (rows_world false) (frame_of_rows sample_rows));
    reflexivity.
Defined.

Lemma main_on_rows_witness :
  main (rows_world true) =
  (Ok tt,
   {| files := files (rows_world true); can_write := true;
      plot_error := plot_error (rows_world true);
      render_error := render_error (rows_world true);
      df := Some (frame_of_rows sample_rows);
      figure := (figure (rows_world true) ++ complete_figure sample_rows)%list;
      saved := Some (figure (rows_world true) ++ complete_figure sample_rows)%list;
      stdout := (stdout (rows_world true) ++ [confirmation])%list |}).
Proof.
  apply (main_on_rows (rows_world true) sample_rows).
  - reflexivity.
  - discriminate.
  - repeat constructor.
  - reflexivity.
  - reflexivity.
Defined.

Lemma main_negative_stddev_witness :
  main negative_stddev_world
  = (Raise ValueError,
     loaded negative_stddev_world (frame_of_rows negative_stddev_rows)).
Proof.
  apply (main_negative_stddev negative_stddev_world
           (frame_of_rows negative_stddev_rows)
           (Int64Series (gridSize <$> negative_stddev_rows))
           (Float64Series (actualTime <$> negative_stddev_rows))
           (Float64Series (stdDev <$> negative_stddev_rows)));
    reflexivity.
Defined.

Lemma main_unreadable_file_witness :
  main empty_file_world = (Raise EmptyDataError, empty_file_world).
Proof. apply (main_unreadable_file empty_file_world EmptyDataError). reflexivity. Defined.

End RunEdgesWitnesses.
